(** * StellarCredit: the wallet scoring engine of [ai-engine/stellar_ai_scoring.py]

    A shallow embedding of [StellarCreditAI] and of the properties its
    specification states about it, followed by the endpoints of
    [ai-engine/api_server.py] that compute something ([get_loan_offers],
    [get_mock_analysis], [get_transaction_history]) and by further
    properties read off the code.

    Conventions of the embedding.
    - A Python [float] is an exact rational ([Q]): rounding of binary64
      arithmetic, infinities and NaN are outside the model.  Float
      literals are written as in the source ([0.20], [2000.0], ...).
    - A Python [int] is a [Z]; [len] of a list is a [nat].
    - A [datetime] is a number of microseconds since the epoch together
      with the flag that says whether it carries a time zone.
    - A raw Horizon operation (a Python [dict] decoded from JSON) is a
      finite map from field names to JSON values.
    - A Python expression that may raise is an [option]: [None] stands
      for the raised exception, whatever its class. *)

From Stdlib Require Import ZArith QArith Qround Qminmax Lia Lqa Ascii String.
From stdpp Require Import base option list gmap strings pretty.

Local Open Scope Z_scope.

(** ** Python arithmetic on floats *)

(** [min(a, b)]: the first argument unless the second is strictly smaller. *)
Definition py_min (a b : Q) : Q := if Qlt_le_dec b a then b else a.

(** [max(a, b)]: the first argument unless the second is strictly greater. *)
Definition py_max (a b : Q) : Q := if Qlt_le_dec a b then b else a.

(** [int(x)] on a float: truncation toward zero. *)
Definition py_int (x : Q) : Z := Z.quot (Qnum x) (Zpos (Qden x)).

(** ** Data model *)

Record WalletMetrics : Type := mkWalletMetrics {
  total_volume_3m : Q;
  transaction_count_3m : Z;
  avg_balance : Q;
  payment_punctuality : Q;
  usage_frequency : Q;
  diversification_score : Q;
  age_score : Q;
  network_activity : Q
}.

(** The field [risk_level] is a [str] in the source; the three literals
    it takes. *)
Inductive RiskLevel : Type := LOW | MEDIUM | HIGH.

Record CreditScore : Type := mkCreditScore {
  score : Z;
  metrics : WalletMetrics;
  risk_level : RiskLevel;
  max_loan_amount : Q;
  interest_rate : Q;
  recommendations : list string
}.

(** A field value of a raw operation record.  Horizon encodes amounts,
    identifiers, addresses and asset types as JSON strings; the model
    keeps strings, booleans and [null] and leaves numbers and nested
    values out, except for the embedded transaction (below). *)
Inductive scalar : Type :=
  | SStr (s : string)
  | SBool (b : bool)
  | SNull.

#[export] Instance scalar_eq_dec : EqDecision scalar.
Proof. solve_decision. Defined.

(** A raw operation: the [dict] of its scalar fields and, when the record
    embeds it, the [dict] under the key ['transaction']. *)
Record operation : Type := mkOperation {
  op_fields : gmap string scalar;
  op_transaction : option (gmap string scalar)
}.

(** [datetime]: microseconds since the epoch; [aware] tells whether the
    value carries a UTC offset. *)
Record datetime : Type := mkDatetime {
  ticks : Z;
  aware : bool
}.

(** The dataclass [TransactionData].  Python does not enforce the
    annotations: the fields copied from the raw record keep the value
    found there. *)
Record TransactionData : Type := mkTransactionData {
  id : scalar;
  type : string;
  amount : Q;
  asset : scalar;
  from_address : scalar;
  to_address : scalar;
  timestamp : datetime;
  successful : scalar;
  memo : scalar
}.

(** ** Class constants of [StellarCreditAI] *)

Module WEIGHTS.
Definition volume : Q := 0.20.
Definition punctuality : Q := 0.30.
Definition frequency : Q := 0.15.
Definition diversification : Q := 0.20.
Definition balance : Q := 0.15.
End WEIGHTS.

Module NORMALIZATION_LIMITS.
Definition max_volume : Q := 50000.
Definition max_frequency : Q := 100.
Definition max_balance : Q := 10000.
Definition min_age_days : Z := 30.
Definition optimal_age_days : Z := 365.
End NORMALIZATION_LIMITS.

(** ** Score composer: [_calculate_credit_score] *)

Section Composer.
Local Open Scope Q_scope.
Variable m : WalletMetrics.

Definition normalized_volume : Q :=
  py_min (total_volume_3m m / NORMALIZATION_LIMITS.max_volume) 1.
Definition normalized_frequency : Q :=
  py_min (usage_frequency m / NORMALIZATION_LIMITS.max_frequency) 1.
Definition normalized_balance : Q :=
  py_min (avg_balance m / NORMALIZATION_LIMITS.max_balance) 1.

Definition weighted_score : Q :=
  normalized_volume * WEIGHTS.volume +
  payment_punctuality m * WEIGHTS.punctuality +
  normalized_frequency * WEIGHTS.frequency +
  diversification_score m * WEIGHTS.diversification +
  normalized_balance * WEIGHTS.balance.

Definition age_bonus : Q := age_score m * 0.1.
Definition network_bonus : Q := network_activity m * 0.05.

Definition final_score : Q := weighted_score + age_bonus + network_bonus.

Definition _calculate_credit_score : Z :=
  py_int (py_min (final_score * 1000) 1000).
End Composer.

(** ** Loan terms: [_determine_loan_terms] *)

Definition _determine_loan_terms (score : Z) : RiskLevel * Q * Q :=
  if 750 <=? score then (LOW, 2000.0, 0.02)%Q
  else if 600 <=? score then (LOW, 1000.0, 0.025)%Q
  else if 450 <=? score then (MEDIUM, 500.0, 0.04)%Q
  else if 300 <=? score then (MEDIUM, 200.0, 0.06)%Q
  else (HIGH, 0.0, 0.10)%Q.

(** The table of the specification (section 4.4), as data: one row per
    threshold, read from the top, and the terms of the last line. *)
Definition loan_table : list (Z * (RiskLevel * Q * Q)) :=
  [ (750, (LOW, 2000.0, 0.02)%Q);
    (600, (LOW, 1000.0, 0.025)%Q);
    (450, (MEDIUM, 500.0, 0.04)%Q);
    (300, (MEDIUM, 200.0, 0.06)%Q) ].

Definition loan_table_else : RiskLevel * Q * Q := (HIGH, 0.0, 0.10)%Q.

(** First row whose threshold the score reaches. *)
Fixpoint table_lookup (rows : list (Z * (RiskLevel * Q * Q))) (score : Z)
  : RiskLevel * Q * Q :=
  match rows with
  | [] => loan_table_else
  | (threshold, terms) :: rest =>
      if threshold <=? score then terms else table_lookup rest score
  end.

(** ** Default metrics and the new-user result *)

Definition _default_metrics : WalletMetrics :=
  {| total_volume_3m := 0.0;
     transaction_count_3m := 0;
     avg_balance := 0.0;
     payment_punctuality := 0.0;
     usage_frequency := 0.0;
     diversification_score := 0.0;
     age_score := 0.0;
     network_activity := 0.0 |}%Q.

Definition _create_new_user_score : CreditScore :=
  {| score := 250;
     metrics := _default_metrics;
     risk_level := HIGH;
     max_loan_amount := 0.0%Q;
     interest_rate := 0.10%Q;
     recommendations :=
       [ "Comece realizando transações na rede Stellar";
         "Mantenha consistência em suas operações";
         "Diversifique os tipos de transações realizadas" ]%string |}.

(** ** Advisor: [_generate_recommendations] *)

Definition _generate_recommendations (m : WalletMetrics) (score : Z)
  : list string :=
  let r0 := [] in
  let r1 := if Qlt_le_dec (usage_frequency m) 5
            then r0 ++ ["Aumente a frequência de transações para melhorar seu score"%string]
            else r0 in
  let r2 := if Qlt_le_dec (diversification_score m) 0.5
            then r1 ++ ["Diversifique seus tipos de transação e assets utilizados"%string]
            else r1 in
  let r3 := if Qlt_le_dec (payment_punctuality m) 0.9
            then r2 ++ ["Mantenha alta taxa de sucesso em suas transações"%string]
            else r2 in
  let r4 := if Qlt_le_dec (avg_balance m) 100
            then r3 ++ ["Mantenha um saldo médio mais alto para demonstrar estabilidade"%string]
            else r3 in
  let r5 := if score <? 300
            then r4 ++ ["Continue usando a rede Stellar para construir seu histórico"%string]
            else r4 in
  match r5 with
  | [] => ["Excelente perfil! Continue mantendo seus bons hábitos financeiros"%string]
  | _ => r5
  end.

(** ** Python operations on raw values *)

Definition microseconds_per_day : Z := 86400000000.

(** [timedelta.days] of the difference [a - b]: whole days, rounded down. *)
Definition days_between (a b : Z) : Z := (a - b) `div` microseconds_per_day.

(** [a < b] on datetimes raises [TypeError] when exactly one is aware. *)
Definition datetime_lt (a b : datetime) : option bool :=
  if bool_decide (aware a = aware b) then Some (ticks a <? ticks b) else None.

(** [s.replace('Z', '+00:00')]. *)
Fixpoint replace_Z (s : string) : string :=
  match s with
  | EmptyString => EmptyString
  | String c rest =>
      if Ascii.eqb c "Z"%char then ("+00:00" ++ replace_Z rest)%string
      else String c (replace_Z rest)
  end.

(** [v.replace('Z', '+00:00')]: only a [str] has the method. *)
Definition scalar_replace_Z (v : scalar) : option string :=
  match v with
  | SStr s => Some (replace_Z s)
  | _ => None
  end.

(** [v == s] for a string literal [s]. *)
Definition eq_str (v : scalar) (s : string) : bool := bool_decide (v = SStr s).

(** [sub in v]: substring test on a [str], [TypeError] otherwise. *)
Definition str_in (sub : string) (v : scalar) : option bool :=
  match v with
  | SStr s => Some (match String.index 0 sub s with Some _ => true | None => false end)
  | _ => None
  end.

(** [v == True], as pandas evaluates it on a cell. *)
Definition eq_True (v : scalar) : bool := bool_decide (v = SBool true).

(** ** Ledger adapter and parser *)

(** What [self.server.operations().for_account(address).limit(limit).call()]
    followed by [operations['_embedded']['records']] yields: the two
    exception classes the adapter handles, or the list of records. *)
Inductive call_result : Type :=
  | NotFoundError
  | OtherException
  | Records (records : list operation).

Section Engine.
(** Library functions the engine calls: [datetime.fromisoformat] and
    [float] on a string.  [None] is a raised [ValueError]. *)
Variable fromisoformat : string -> option datetime.
Variable float_of_str : string -> option Q.

(** [float(v)]. *)
Definition py_float (v : scalar) : option Q :=
  match v with
  | SStr s => float_of_str s
  | SBool b => Some (if b then 1 else 0)%Q
  | SNull => None
  end.

(** [datetime.fromisoformat(op['created_at'].replace('Z', '+00:00'))]. *)
Definition parse_created_at (op : operation) : option datetime :=
  created_at ← op_fields op !! "created_at";
  s ← scalar_replace_Z created_at;
  fromisoformat s.

(** [_parse_payment_operation]: every exception raised in the body is
    caught by its [except Exception] and turned into [None], the value
    the [else] branch returns too. *)
Definition _parse_payment_operation (op : operation) (wallet_address : string)
  : option TransactionData :=
  let operation := op_fields op in
  op_type ← operation !! "type";
  timestamp ← parse_created_at op;
  '(from_addr, to_addr, amount, asset, tx_type) ←
    (if eq_str op_type "payment" then
       from_addr ← operation !! "from";
       to_addr ← operation !! "to";
       amount ← operation !! "amount" ≫= py_float;
       asset ← operation !! "asset_type";
       let tx_type := if eq_str from_addr wallet_address
                      then "payment" else "receive" in
       Some (from_addr, to_addr, amount, asset, tx_type)
     else
       is_path ← str_in "path_payment" op_type;
       if is_path : bool then
         from_addr ← operation !! "from";
         to_addr ← operation !! "to";
         if eq_str from_addr wallet_address then
           amount ← operation !! "source_amount" ≫= py_float;
           asset ← operation !! "source_asset_type";
           Some (from_addr, to_addr, amount, asset, "path_payment_send")
         else
           amount ← operation !! "amount" ≫= py_float;
           asset ← operation !! "asset_type";
           Some (from_addr, to_addr, amount, asset, "path_payment_receive")
       else None);
  id ← operation !! "id";
  Some {| id := id;
          type := tx_type;
          amount := amount;
          asset := if negb (eq_str asset "native") then asset else SStr "XLM";
          from_address := from_addr;
          to_address := to_addr;
          timestamp := timestamp;
          successful := default (SBool true) (operation !! "successful");
          memo := match op_transaction op with
                  | Some tx => default SNull (tx !! "memo")
                  | None => SNull
                  end |}.

(** [op['type'] in ['payment', 'path_payment_strict_send',
    'path_payment_strict_receive']]. *)
Definition is_payment_family (op_type : scalar) : bool :=
  eq_str op_type "payment"
  || eq_str op_type "path_payment_strict_send"
  || eq_str op_type "path_payment_strict_receive".

(** The [for] loop of [_fetch_wallet_transactions], [transactions] being
    the list built so far.  [None]: an exception left the loop. *)
Fixpoint fetch_loop (three_months_ago : datetime) (address : string)
    (records : list operation) (transactions : list TransactionData)
  : option (list TransactionData) :=
  match records with
  | [] => Some transactions
  | op :: rest =>
      op_date ← parse_created_at op;
      too_old ← datetime_lt op_date three_months_ago;
      if too_old : bool then
        fetch_loop three_months_ago address rest transactions
      else
        op_type ← op_fields op !! "type";
        if is_payment_family op_type then
          match _parse_payment_operation op address with
          | Some transaction =>
              fetch_loop three_months_ago address rest
                (transactions ++ [transaction])
          | None => fetch_loop three_months_ago address rest transactions
          end
        else fetch_loop three_months_ago address rest transactions
  end.

(** [_fetch_wallet_transactions]; [now] is the value of
    [datetime.now()], a naive datetime. *)
Definition _fetch_wallet_transactions (now : Z) (call : call_result)
    (address : string) : list TransactionData :=
  let three_months_ago :=
    {| ticks := now - 90 * microseconds_per_day; aware := false |} in
  match call with
  | Records records =>
      match fetch_loop three_months_ago address records [] with
      | Some transactions => transactions
      | None => []
      end
  | NotFoundError => []
  | OtherException => []
  end.
End Engine.

(** The records on which the loop body raises before it reaches the
    parser: the timestamp is missing or does not parse, it cannot be
    compared with the naive [three_months_ago], or the record is in the
    window and has no ['type']. *)
Definition aborts_batch (fromisoformat : string -> option datetime)
    (three_months_ago : datetime) (op : operation) : Prop :=
  match parse_created_at fromisoformat op with
  | None => True
  | Some op_date =>
      match datetime_lt op_date three_months_ago with
      | None => True
      | Some true => False
      | Some false => op_fields op !! "type" = None
      end
  end.

(** ** Feature extractor *)

(** A row of the [DataFrame] that [_calculate_wallet_metrics] builds: its
    six columns.  There is no ['id'] column. *)
Record row : Type := mkRow {
  row_timestamp : datetime;
  row_amount : Q;
  row_type : string;
  row_asset : scalar;
  row_successful : scalar;
  row_is_outgoing : bool
}.

Definition make_row (address : string) (tx : TransactionData) : row :=
  {| row_timestamp := timestamp tx;
     row_amount := amount tx;
     row_type := type tx;
     row_asset := asset tx;
     row_successful := successful tx;
     row_is_outgoing := eq_str (from_address tx) address |}.

(** [len(df)] as a float operand. *)
Definition Q_of_nat (n : nat) : Q := inject_Z (Z.of_nat n).

(** [Series.sum()]. *)
Definition series_sum (l : list Q) : Q := foldr Qplus 0%Q l.

(** [Series.nunique()]: distinct values, missing ones dropped first. *)
Definition nunique `{EqDecision A} (is_na : A -> bool) (l : list A) : nat :=
  length (remove_dups (filter (fun x => is_na x = false) l)).

Definition scalar_is_na (v : scalar) : bool := bool_decide (v = SNull).

(** [Series.min()] and [Series.max()] of the timestamp column of a
    non-empty frame, as microsecond counts.  pandas compares the values
    of one column among themselves; the adapter only lets naive
    datetimes through (lemma [fetch_loop_naive] below). *)
Definition min_ticks (first : row) (rest : list row) : Z :=
  foldl (fun acc r => Z.min acc (ticks (row_timestamp r)))
        (ticks (row_timestamp first)) rest.

Definition max_ticks (first : row) (rest : list row) : Z :=
  foldl (fun acc r => Z.max acc (ticks (row_timestamp r)))
        (ticks (row_timestamp first)) rest.

Section Features.
Local Open Scope Q_scope.

Definition _calculate_volume_metrics (df : list row) : Q :=
  foldl (fun volume r =>
           if eq_str (row_asset r) "XLM"
           then volume + row_amount r * 0.10
           else volume + row_amount r)
        0 df.

Definition _calculate_usage_frequency (df : list row) : Q :=
  match df with
  | [] => 0
  | first :: rest =>
      let min_date := min_ticks first rest in
      let max_date := max_ticks first rest in
      let period_days := days_between max_date min_date in
      let period_months := py_max (inject_Z period_days / 30) 1 in
      Q_of_nat (length df) / period_months
  end.

Definition _calculate_diversification_score (df : list row) : Q :=
  match df with
  | [] => 0
  | _ =>
      let unique_types := nunique (fun _ => false) (map row_type df) in
      let type_diversity := py_min (Q_of_nat unique_types / 3) 1 in
      let unique_assets := nunique scalar_is_na (map row_asset df) in
      let asset_diversity := py_min (Q_of_nat unique_assets / 5) 1 in
      type_diversity * 0.6 + asset_diversity * 0.4
  end.

Definition _estimate_average_balance (df : list row) (address : string) : Q :=
  match df with
  | [] => 0
  | _ =>
      let inflow :=
        series_sum (map row_amount (filter (fun r => row_is_outgoing r = false) df)) in
      let outflow :=
        series_sum (map row_amount (filter (fun r => row_is_outgoing r = true) df)) in
      let net_flow := inflow - outflow in
      let avg_transaction := series_sum (map row_amount df) / Q_of_nat (length df) in
      py_max (avg_transaction * 10) (net_flow * 0.1)
  end.

(** [now] is the value of [datetime.now()] read here. *)
Definition _calculate_age_score (now : Z) (df : list row) : Q :=
  match df with
  | [] => 0
  | first :: rest =>
      let oldest_tx := min_ticks first rest in
      let days_active := days_between now oldest_tx in
      if (days_active <? NORMALIZATION_LIMITS.min_age_days)%Z then 0.3
      else py_min (inject_Z days_active
                   / inject_Z NORMALIZATION_LIMITS.optimal_age_days) 1
  end.

(** ['id' in df.columns] is false for the frame built above, so the
    count is [len(df)]. *)
Definition _calculate_network_activity (df : list row) : Q :=
  match df with
  | [] => 0
  | _ =>
      let unique_interactions := length df in
      let max_interactions := 50 in
      py_min (Q_of_nat unique_interactions / max_interactions) 1
  end.

Definition successful_rows (df : list row) : list row :=
  filter (fun r => eq_True (row_successful r) = true) df.

Definition _calculate_wallet_metrics (now : Z)
    (transactions : list TransactionData) (address : string) : WalletMetrics :=
  match transactions with
  | [] => _default_metrics
  | _ =>
      let df := map (make_row address) transactions in
      {| total_volume_3m := _calculate_volume_metrics df;
         transaction_count_3m := Z.of_nat (length (successful_rows df));
         avg_balance := _estimate_average_balance df address;
         payment_punctuality :=
           if (0 <? length df)%nat
           then Q_of_nat (length (successful_rows df)) / Q_of_nat (length df)
           else 0;
         usage_frequency := _calculate_usage_frequency df;
         diversification_score := _calculate_diversification_score df;
         age_score := _calculate_age_score now df;
         network_activity := _calculate_network_activity df |}
  end.
End Features.

(** ** Orchestrator: [analyze_wallet] *)

Section Orchestrator.
Variable fromisoformat : string -> option datetime.
Variable float_of_str : string -> option Q.

(** [now] and [now'] are the two readings of the clock, in the adapter
    and in [_calculate_age_score]; [call] is the outcome of the ledger
    query.  The [except] clause of [analyze_wallet] logs and re-raises,
    and no step below raises in this model. *)
Definition analyze_wallet (now now' : Z) (call : call_result)
    (address : string) : CreditScore :=
  let transactions :=
    _fetch_wallet_transactions fromisoformat float_of_str now call address in
  match transactions with
  | [] => _create_new_user_score
  | _ =>
      let metrics := _calculate_wallet_metrics now' transactions address in
      let score := _calculate_credit_score metrics in
      let '(risk_level, max_loan, interest_rate) := _determine_loan_terms score in
      let recommendations := _generate_recommendations metrics score in
      {| score := score;
         metrics := metrics;
         risk_level := risk_level;
         max_loan_amount := max_loan;
         interest_rate := interest_rate;
         recommendations := recommendations |}
  end.
End Orchestrator.

(** ** Vocabulary of the specification *)

(** The seven features the composer reads: the five weighted ones and the
    two bonus ones. *)
Inductive feature : Type :=
  | Volume | Punctuality | Frequency | Diversification | Balance
  | AgeScore | NetworkActivity.

Definition feature_get (f : feature) (m : WalletMetrics) : Q :=
  match f with
  | Volume => total_volume_3m m
  | Punctuality => payment_punctuality m
  | Frequency => usage_frequency m
  | Diversification => diversification_score m
  | Balance => avg_balance m
  | AgeScore => age_score m
  | NetworkActivity => network_activity m
  end.

(** The metrics vector that differs from [m] in feature [f] only. *)
Definition feature_set (f : feature) (x : Q) (m : WalletMetrics) : WalletMetrics :=
  {| total_volume_3m := match f with Volume => x | _ => total_volume_3m m end;
     transaction_count_3m := transaction_count_3m m;
     avg_balance := match f with Balance => x | _ => avg_balance m end;
     payment_punctuality :=
       match f with Punctuality => x | _ => payment_punctuality m end;
     usage_frequency := match f with Frequency => x | _ => usage_frequency m end;
     diversification_score :=
       match f with Diversification => x | _ => diversification_score m end;
     age_score := match f with AgeScore => x | _ => age_score m end;
     network_activity :=
       match f with NetworkActivity => x | _ => network_activity m end |}.

Definition nonneg_features (m : WalletMetrics) : Prop :=
  forall f, (0 <= feature_get f m)%Q.

(** The terms a [CreditScore] carries. *)
Definition loan_terms (r : CreditScore) : RiskLevel * Q * Q :=
  (risk_level r, max_loan_amount r, interest_rate r).

(** The timestamps of a frame, as microsecond counts. *)
Definition stamps (df : list row) : list Z := map (fun r => ticks (row_timestamp r)) df.

(** The kinds the parser takes up: its two branches. *)
Definition recognised (op_type : scalar) : bool :=
  eq_str op_type "payment"
  || bool_decide (str_in "path_payment" op_type = Some true).

(** A record the parser accepts: its kind is recognised, its timestamp
    parses and the fields the branch taken reads are there, the amount
    being convertible by [float]. *)
Definition well_formed (fromisoformat : string -> option datetime)
    (float_of_str : string -> option Q) (op : operation) (wallet_address : string)
  : Prop :=
  let operation := op_fields op in
  is_Some (parse_created_at fromisoformat op) /\
  is_Some (operation !! "id") /\
  exists op_type from_addr,
    operation !! "type" = Some op_type /\
    recognised op_type = true /\
    operation !! "from" = Some from_addr /\
    is_Some (operation !! "to") /\
    if eq_str op_type "payment" || negb (eq_str from_addr wallet_address)
    then is_Some (operation !! "amount" ≫= py_float float_of_str) /\
         is_Some (operation !! "asset_type")
    else is_Some (operation !! "source_amount" ≫= py_float float_of_str) /\
         is_Some (operation !! "source_asset_type").

(** ** Fixtures *)

(** The [good_payer] profile of [get_mock_analysis] in [api_server.py]:
    its metrics, and the result the endpoint returns for it. *)
Definition good_payer_metrics : WalletMetrics :=
  {| total_volume_3m := 15000.0;
     transaction_count_3m := 47;
     avg_balance := 850.0;
     payment_punctuality := 0.95;
     usage_frequency := 15.7;
     diversification_score := 0.8;
     age_score := 0.9;
     network_activity := 0.7 |}%Q.

Definition good_payer_mock : CreditScore :=
  {| score := 750;
     metrics := good_payer_metrics;
     risk_level := LOW;
     max_loan_amount := 2000.0%Q;
     interest_rate := 0.02%Q;
     recommendations :=
       [ "Excelente perfil! Continue mantendo seus bons hábitos";
         "Considere diversificar ainda mais seus assets" ]%string |}.

(** A metrics vector with a negative balance estimate and nothing else. *)
Definition overdrawn_metrics : WalletMetrics :=
  feature_set Balance (-40000)%Q _default_metrics.

(** The values of [datetime.fromisoformat] and of [float] on the strings
    of the sample records below. *)
Definition sample_fromisoformat (s : string) : option datetime :=
  if String.eqb s "2024-05-01T12:00:00"
  then Some {| ticks := 1714564800000000; aware := false |}
  else if String.eqb s "2024-06-15T18:00:00"
  then Some {| ticks := 1718474400000000; aware := false |}
  else if String.eqb s "2024-06-15T18:00:00+00:00"
  then Some {| ticks := 1718474400000000; aware := true |}
  else None.

Definition sample_float (s : string) : option Q :=
  if String.eqb s "100.0000000" then Some 100%Q
  else if String.eqb s "25.5000000" then Some 25.5%Q
  else None.

(** [datetime.now()] for the samples: 2024-06-30T00:00:00. *)
Definition sample_now : Z := 1719705600000000.

Definition sample_wallet : string := "GWALLET".

(** A payment sent by the wallet; the record has no ['successful'] key. *)
Definition sample_payment : operation :=
  {| op_fields :=
       list_to_map
         [ ("id", SStr "101"); ("type", SStr "payment");
           ("created_at", SStr "2024-05-01T12:00:00");
           ("from", SStr "GWALLET"); ("to", SStr "GOTHER");
           ("amount", SStr "100.0000000"); ("asset_type", SStr "native") ];
     op_transaction := None |}.

(** A payment received by the wallet six weeks later. *)
Definition sample_receipt : operation :=
  {| op_fields :=
       list_to_map
         [ ("id", SStr "102"); ("type", SStr "payment");
           ("created_at", SStr "2024-06-15T18:00:00");
           ("from", SStr "GOTHER"); ("to", SStr "GWALLET");
           ("amount", SStr "25.5000000");
           ("asset_type", SStr "credit_alphanum4");
           ("successful", SBool true) ];
     op_transaction := Some (list_to_map [("memo", SStr "rent")]) |}.

(** A payment whose timestamp is not an ISO date. *)
Definition sample_bad_timestamp : operation :=
  {| op_fields :=
       list_to_map
         [ ("id", SStr "103"); ("type", SStr "payment");
           ("created_at", SStr "yesterday");
           ("from", SStr "GOTHER"); ("to", SStr "GWALLET");
           ("amount", SStr "25.5000000"); ("asset_type", SStr "native") ];
     op_transaction := None |}.

(** A payment as Horizon dates it, with the [Z] suffix. *)
Definition sample_zulu : operation :=
  {| op_fields :=
       list_to_map
         [ ("id", SStr "104"); ("type", SStr "payment");
           ("created_at", SStr "2024-06-15T18:00:00Z");
           ("from", SStr "GOTHER"); ("to", SStr "GWALLET");
           ("amount", SStr "25.5000000"); ("asset_type", SStr "native") ];
     op_transaction := None |}.

(** An operation of another kind. *)
Definition sample_create_account : operation :=
  {| op_fields :=
       list_to_map
         [ ("id", SStr "100"); ("type", SStr "create_account");
           ("created_at", SStr "2024-05-01T12:00:00");
           ("account", SStr "GWALLET"); ("funder", SStr "GOTHER");
           ("starting_balance", SStr "100.0000000") ];
     op_transaction := None |}.

Definition sample_payment_tx : TransactionData :=
  {| id := SStr "101";
     type := "payment";
     amount := 100%Q;
     asset := SStr "XLM";
     from_address := SStr "GWALLET";
     to_address := SStr "GOTHER";
     timestamp := {| ticks := 1714564800000000; aware := false |};
     successful := SBool true;
     memo := SNull |}.

Definition sample_receipt_tx : TransactionData :=
  {| id := SStr "102";
     type := "receive";
     amount := 25.5%Q;
     asset := SStr "credit_alphanum4";
     from_address := SStr "GOTHER";
     to_address := SStr "GWALLET";
     timestamp := {| ticks := 1718474400000000; aware := false |};
     successful := SBool true;
     memo := SStr "rent" |}.

(** The frame of the two sample transactions. *)
Definition sample_df : list row :=
  map (make_row sample_wallet) [sample_payment_tx; sample_receipt_tx].

(** ** Vocabulary for the adapter and the advisor *)

(** The records the loop hands to the parser: dated inside the window and
    of one of the three kinds. *)
Definition in_window (fromisoformat : string -> option datetime)
    (three_months_ago : datetime) (op : operation) : bool :=
  match parse_created_at fromisoformat op ≫= (fun d => datetime_lt d three_months_ago) with
  | Some false => true
  | _ => false
  end.

Definition is_payment_record (op : operation) : bool :=
  match op_fields op !! "type" with
  | Some op_type => is_payment_family op_type
  | None => false
  end.

(** The start of the window of [_fetch_wallet_transactions]. *)
Definition window_start (now : Z) : datetime :=
  {| ticks := now - 90 * microseconds_per_day; aware := false |}.

(** The four values the parser gives to [type]. *)
Definition transaction_types : list string :=
  ["payment"; "receive"; "path_payment_send"; "path_payment_receive"]%string.

(** The messages of the five rules of the advisor, in the order of the
    rules, and the message for a profile that triggers none. *)
Definition advice_messages : list string :=
  [ "Aumente a frequência de transações para melhorar seu score";
    "Diversifique seus tipos de transação e assets utilizados";
    "Mantenha alta taxa de sucesso em suas transações";
    "Mantenha um saldo médio mais alto para demonstrar estabilidade";
    "Continue usando a rede Stellar para construir seu histórico" ]%string.

Definition praise_message : string :=
  "Excelente perfil! Continue mantendo seus bons hábitos financeiros".

Definition history_message : string :=
  "Continue usando a rede Stellar para construir seu histórico".

(** The amount of a row in the reference currency, as the loop of
    [_calculate_volume_metrics] adds it. *)
Definition row_value (r : row) : Q :=
  if eq_str (row_asset r) "XLM" then (row_amount r * 0.10)%Q else row_amount r.

(** ** The API server: [api_server.py] *)

Module api_server.

(** The answer of an endpoint: the body it returns, or the
    [HTTPException] that leaves it, of which the model keeps the status. *)
Inductive response (A : Type) : Type :=
  | Ok (body : A)
  | HTTPException (status_code : Z).
Arguments Ok {A} body.
Arguments HTTPException {A} status_code.

(** What the [try] block of an endpoint does: it returns, or it raises
    an [HTTPException] of its own, or another exception. *)
Inductive raised : Type :=
  | RaisedHTTP (status_code : Z)
  | RaisedOther.

Inductive outcome (A : Type) : Type :=
  | Returns (a : A)
  | Raises (e : raised).
Arguments Returns {A} a.
Arguments Raises {A} e.

(** [try: ... except Exception as e: raise HTTPException(500, ...)].
    [HTTPException] is an [Exception]: the clause catches the ones the
    block raises itself. *)
Definition except_500 {A : Type} (block : outcome A) : response A :=
  match block with
  | Returns a => Ok a
  | Raises _ => HTTPException 500
  end.

(** [CreditScoreResponse]: the fields of a [CreditScore] and the time of
    the answer. *)
Record CreditScoreResponse : Type := mkCreditScoreResponse {
  credit : CreditScore;
  analysis_timestamp : Z
}.

(** The other two profiles of [get_mock_analysis]. *)
Definition medium_payer_mock : CreditScore :=
  {| score := 450;
     metrics :=
       {| total_volume_3m := 3000.0;
          transaction_count_3m := 20;
          avg_balance := 150.0;
          payment_punctuality := 0.7;
          usage_frequency := 6.7;
          diversification_score := 0.4;
          age_score := 0.6;
          network_activity := 0.3 |}%Q;
     risk_level := MEDIUM;
     max_loan_amount := 500.0%Q;
     interest_rate := 0.04%Q;
     recommendations :=
       [ "Aumente a frequência de transações";
         "Melhore a pontualidade dos pagamentos";
         "Diversifique os tipos de transação" ]%string |}.

Definition new_user_mock : CreditScore :=
  {| score := 300;
     metrics :=
       {| total_volume_3m := 500.0;
          transaction_count_3m := 5;
          avg_balance := 50.0;
          payment_punctuality := 1.0;
          usage_frequency := 1.7;
          diversification_score := 0.2;
          age_score := 0.3;
          network_activity := 0.1 |}%Q;
     risk_level := HIGH;
     max_loan_amount := 200.0%Q;
     interest_rate := 0.06%Q;
     recommendations :=
       [ "Continue usando a rede Stellar para construir histórico";
         "Realize mais transações variadas";
         "Mantenha alta taxa de sucesso" ]%string |}.

Definition mock_profiles : gmap string CreditScore :=
  list_to_map
    [ ("good_payer"%string, good_payer_mock);
      ("medium_payer"%string, medium_payer_mock);
      ("new_user"%string, new_user_mock) ].

(** [get_mock_analysis]; [now] is [datetime.now()]. *)
Definition get_mock_analysis (now : Z) (profile : string)
  : response CreditScoreResponse :=
  except_500
    (match mock_profiles !! profile with
     | None => Raises (RaisedHTTP 404)
     | Some profile_data =>
         Returns {| credit := profile_data; analysis_timestamp := now |}
     end).

Record LoanOffer : Type := mkLoanOffer {
  amount : Q;
  interest_rate : Q;
  duration_months : Z;
  description : string
}.

(** [get_loan_offers]. *)
Definition get_loan_offers (score : Z) : response (list LoanOffer) :=
  except_500
    (if (score <? 0) || (1000 <? score) then Raises (RaisedHTTP 400)
     else
       Returns (if 750 <=? score then
             [ mkLoanOffer 2000.0 0.02 12
                 "Empréstimo Premium - Taxa baixa para excelente histórico";
               mkLoanOffer 1000.0 0.015 6
                 "Empréstimo Rápido - Curto prazo com taxa especial" ]
           else if 600 <=? score then
             [ mkLoanOffer 1000.0 0.025 12 "Empréstimo Padrão - Boas condições";
               mkLoanOffer 500.0 0.02 6
                 "Empréstimo Rápido - Valor menor, taxa melhor" ]
           else if 450 <=? score then
             [ mkLoanOffer 500.0 0.04 12 "Empréstimo Intermediário";
               mkLoanOffer 200.0 0.035 6
                 "Empréstimo Básico - Construa seu histórico" ]
           else if 300 <=? score then
             [ mkLoanOffer 200.0 0.06 6
                 "Empréstimo Inicial - Para construir histórico";
               mkLoanOffer 100.0 0.05 3 "Microcrédito - Primeiro empréstimo" ]
           else [])%Q).

(** An entry of the list [get_transaction_history] builds. *)
Record HistoryItem : Type := mkHistoryItem {
  item_id : string;
  item_type : string;
  item_amount : Z;
  item_asset : string;
  item_timestamp : string;
  item_status : string;
  item_memo : string
}.

Record TransactionHistory : Type := mkTransactionHistory {
  address : string;
  transactions : list HistoryItem;
  total_count : Z;
  analysis_available : bool
}.

(** [datetime - datetime]: a [timedelta], here its microseconds;
    [TypeError] when exactly one operand is aware. *)
Definition datetime_sub (a b : datetime) : option Z :=
  if bool_decide (aware a = aware b) then Some (ticks a - ticks b) else None.

(** [.isoformat()] on a [timedelta]: the class has no such attribute,
    the call raises [AttributeError]. *)
Definition timedelta_isoformat (microseconds : Z) : option string := None.

(** [f"{i:03d}"] for an index of [range]. *)
Definition format_03d (i : nat) : string :=
  let digits := pretty i in
  (String.concat "" (replicate (3 - String.length digits) "0") ++ digits)%string.

Section History.
(** [datetime.fromtimestamp], the local time of an epoch second. *)
Variable fromtimestamp : Z -> datetime.

(** The dictionary built for index [i]; its values are evaluated in the
    order of the keys. *)
Definition history_item (now : Z) (i : nat) : option HistoryItem :=
  let id := ("tx_" ++ format_03d i)%string in
  let type := if (Z.of_nat i mod 2 =? 0) then "payment" else "receive" in
  let amount := 100 + Z.of_nat i * 25 in
  let asset := if (Z.of_nat i mod 3 =? 0) then "USDC" else "XLM" in
  timestamp ←
    datetime_sub {| ticks := now; aware := false |}
                 (fromtimestamp (Z.of_nat i * 86400))
    ≫= timedelta_isoformat;
  Some {| item_id := id;
          item_type := type;
          item_amount := amount;
          item_asset := asset;
          item_timestamp := timestamp;
          item_status := "success";
          item_memo := ("Transaction " ++ pretty i)%string |}.

(** [get_transaction_history]; an exception in the comprehension is an
    exception of the body. *)
Definition get_transaction_history (now : Z) (address : string) (limit : Z)
  : response TransactionHistory :=
  let limit := if 200 <? limit then 200 else limit in
  except_500
    (match mapM (history_item now) (seq 0 (Z.to_nat (Z.min limit 30))) with
     | Some mock_transactions =>
         Returns {| address := address;
               transactions := mock_transactions;
               total_count := Z.of_nat (length mock_transactions);
               analysis_available := true |}
     | None => Raises RaisedOther
     end).
End History.

End api_server.

(** * Properties *)

(** ** The model at work on the sample records *)

Example str_in_path_payment :
  str_in "path_payment" (SStr "path_payment_strict_send") = Some true /\
  str_in "path_payment" (SStr "payment") = Some false /\
  str_in "path_payment" SNull = None.
Proof. repeat split. Qed.

(** Two payments, 100 XLM out and 25.5 of an issued asset in, 45 days
    apart: volume 35.5, balance estimate 627.5, 4/3 transactions a month,
    diversification 0.56, age 59/365, activity 2/50; the sum of step 3 is
    0.4417..., the score 441. *)
Example analyze_sample_history :
  let r := analyze_wallet sample_fromisoformat sample_float sample_now sample_now
             (Records [sample_payment; sample_receipt]) sample_wallet in
  score r = 441 /\ loan_terms r = (MEDIUM, 200.0, 0.06)%Q /\
  transaction_count_3m (metrics r) = 2 /\
  (total_volume_3m (metrics r) == 35.5)%Q /\
  (avg_balance (metrics r) == 627.5)%Q /\
  (usage_frequency (metrics r) == 4 / 3)%Q /\
  (diversification_score (metrics r) == 0.56)%Q /\
  recommendations r
  = ["Aumente a frequência de transações para melhorar seu score"%string].
Proof. repeat split; vm_compute; reflexivity. Qed.

(** ** Python arithmetic *)

Lemma py_min_le_l (a b : Q) : (py_min a b <= a)%Q.
Proof. unfold py_min. destruct (Qlt_le_dec b a); lra. Qed.

Lemma py_min_le_r (a b : Q) : (py_min a b <= b)%Q.
Proof. unfold py_min. destruct (Qlt_le_dec b a); lra. Qed.

Lemma py_min_glb (a b c : Q) : (c <= a)%Q -> (c <= b)%Q -> (c <= py_min a b)%Q.
Proof. unfold py_min. destruct (Qlt_le_dec b a); auto. Qed.

Lemma py_min_mono (a a' b : Q) : (a <= a')%Q -> (py_min a b <= py_min a' b)%Q.
Proof.
  intros H. apply py_min_glb.
  - pose proof (py_min_le_l a b). lra.
  - apply py_min_le_r.
Qed.

(** [min] and [max] of Python pick one of their arguments; up to equality
    of rationals they are the mathematical ones. *)
Lemma py_min_Qmin (a b : Q) : (py_min a b == Qmin a b)%Q.
Proof.
  unfold py_min. destruct (Qlt_le_dec b a) as [H|H]; symmetry.
  - apply Q.min_r. lra.
  - apply Q.min_l. exact H.
Qed.

Lemma py_max_Qmax (a b : Q) : (py_max a b == Qmax a b)%Q.
Proof.
  unfold py_max. destruct (Qlt_le_dec a b) as [H|H]; symmetry.
  - apply Q.max_r. lra.
  - apply Q.max_l. exact H.
Qed.

Lemma py_max_ge_r (a b : Q) : (b <= py_max a b)%Q.
Proof. unfold py_max. destruct (Qlt_le_dec a b); lra. Qed.

(** On a non-negative float, [int] is the floor. *)
Lemma py_int_floor (x : Q) : (0 <= x)%Q -> py_int x = Qfloor x.
Proof.
  destruct x as [n d]. unfold Qle, py_int, Qfloor. simpl. intros H.
  apply Z.quot_div_nonneg; lia.
Qed.

Lemma py_int_opp (x : Q) : py_int (- x) = - py_int x.
Proof. destruct x as [n d]. unfold py_int. simpl. apply Z.quot_opp_l. lia. Qed.

Lemma py_int_nonneg (x : Q) : (0 <= x)%Q -> 0 <= py_int x.
Proof.
  intros H. rewrite py_int_floor by exact H.
  change 0 with (Qfloor 0). apply Qfloor_resp_le. exact H.
Qed.

(** Truncation toward zero is monotone on the whole line. *)
Lemma py_int_mono (x y : Q) : (x <= y)%Q -> py_int x <= py_int y.
Proof.
  intros H.
  destruct (Qlt_le_dec x 0) as [Hx|Hx], (Qlt_le_dec y 0) as [Hy|Hy].
  - assert (E : py_int (- y) <= py_int (- x)).
    { rewrite !py_int_floor by lra. apply Qfloor_resp_le. lra. }
    rewrite !py_int_opp in E. lia.
  - assert (E : 0 <= py_int (- x)) by (apply py_int_nonneg; lra).
    assert (E' : 0 <= py_int y) by (apply py_int_nonneg; lra).
    rewrite py_int_opp in E. lia.
  - lra.
  - rewrite !py_int_floor by lra. apply Qfloor_resp_le. exact H.
Qed.

(** ** Score composer *)

(** Step 1 of the composer: dividing by a positive ceiling and capping at
    one keeps the order and the sign. *)
Lemma normalize_mono (a b c : Q) :
  (0 < c)%Q -> (a <= b)%Q -> (py_min (a / c) 1 <= py_min (b / c) 1)%Q.
Proof.
  intros Hc H. apply py_min_mono. unfold Qdiv.
  apply Qmult_le_compat_r; [exact H|].
  apply Qlt_le_weak, Qinv_lt_0_compat, Hc.
Qed.

Lemma normalize_nonneg (a c : Q) :
  (0 < c)%Q -> (0 <= a)%Q -> (0 <= py_min (a / c) 1)%Q.
Proof.
  intros Hc H. apply py_min_glb; [|lra].
  unfold Qdiv. apply Qmult_le_0_compat; [exact H|].
  apply Qlt_le_weak, Qinv_lt_0_compat, Hc.
Qed.

(** With no negative feature the sum of step 3 is not negative. *)
Lemma final_score_nonneg (m : WalletMetrics) :
  nonneg_features m -> (0 <= final_score m)%Q.
Proof.
  intros H.
  pose proof (H Volume) as Hv. pose proof (H Punctuality) as Hp.
  pose proof (H Frequency) as Hf. pose proof (H Diversification) as Hd.
  pose proof (H Balance) as Hb. pose proof (H AgeScore) as Ha.
  pose proof (H NetworkActivity) as Hn. simpl in *.
  assert (0 <= normalized_volume m)%Q by (apply normalize_nonneg; done).
  assert (0 <= normalized_frequency m)%Q by (apply normalize_nonneg; done).
  assert (0 <= normalized_balance m)%Q by (apply normalize_nonneg; done).
  unfold final_score, weighted_score, age_bonus, network_bonus.
  unfold WEIGHTS.volume, WEIGHTS.punctuality, WEIGHTS.frequency,
    WEIGHTS.diversification, WEIGHTS.balance.
  lra.
Qed.

(** Raising one feature does not lower the sum of step 3. *)
Lemma final_score_mono (f : feature) (m : WalletMetrics) (x : Q) :
  (feature_get f m <= x)%Q ->
  (final_score m <= final_score (feature_set f x m))%Q.
Proof.
  intros H.
  unfold final_score, weighted_score, age_bonus, network_bonus,
    normalized_volume, normalized_frequency, normalized_balance.
  unfold WEIGHTS.volume, WEIGHTS.punctuality, WEIGHTS.frequency,
    WEIGHTS.diversification, WEIGHTS.balance.
  destruct f; simpl in *; try lra.
  - pose proof (normalize_mono _ _ NORMALIZATION_LIMITS.max_volume eq_refl H). lra.
  - pose proof (normalize_mono _ _ NORMALIZATION_LIMITS.max_frequency eq_refl H). lra.
  - pose proof (normalize_mono _ _ NORMALIZATION_LIMITS.max_balance eq_refl H). lra.
Qed.


(** Where the sum is not negative the composer does what its docstring
    says: the score lies in [0, 1000] and is the floor of
    [min (sum * 1000, 1000)]; the all-zero vector scores 0. *)
Lemma score_range_of_nonneg_sum (m : WalletMetrics) :
  (0 <= final_score m)%Q ->
  0 <= _calculate_credit_score m <= 1000 /\
  _calculate_credit_score m = Qfloor (Qmin (final_score m * 1000) 1000) /\
  _calculate_credit_score _default_metrics = 0.
Proof.
  intros H. unfold _calculate_credit_score.
  assert (Hlo : (0 <= py_min (final_score m * 1000) 1000)%Q)
    by (apply py_min_glb; lra).
  pose proof (py_min_le_r (final_score m * 1000) 1000) as Hhi.
  split; [split|split].
  - apply py_int_nonneg, Hlo.
  - change 1000 with (py_int 1000). apply py_int_mono, Hhi.
  - rewrite py_int_floor by exact Hlo. apply Qfloor_comp, py_min_Qmin.
  - reflexivity.
Qed.

(** C6: raising any one of the seven features, the others and the
    transaction count unchanged, never lowers the score. *)
Theorem score_monotone (f : feature) (m : WalletMetrics) (x : Q) :
  (feature_get f m <= x)%Q ->
  _calculate_credit_score m <= _calculate_credit_score (feature_set f x m).
Proof.
  intros H. unfold _calculate_credit_score.
  apply py_int_mono, py_min_mono.
  pose proof (final_score_mono f m x H). lra.
Qed.

Lemma score_monotone_witness :
  (feature_get Punctuality good_payer_metrics <= 1)%Q /\
  _calculate_credit_score good_payer_metrics
  <= _calculate_credit_score (feature_set Punctuality 1%Q good_payer_metrics).
Proof.
  split; [vm_compute; discriminate|].
  apply (score_monotone Punctuality good_payer_metrics 1%Q).
  vm_compute. discriminate.
Defined.

(** C5, the claim as stated fails: the composer gives the metrics of the
    [good_payer] fixture the score 666, not the 750 the fixture carries,
    and the terms of 666 are not the fixture's. *)
Lemma good_payer_counterexample :
  _calculate_credit_score (metrics good_payer_mock) <> score good_payer_mock /\
  ~ (max_loan_amount good_payer_mock ==
       snd (fst (_determine_loan_terms
                   (_calculate_credit_score (metrics good_payer_mock)))))%Q.
Proof. split; vm_compute; discriminate. Qed.

(** C5, amended: composing the metrics of the [good_payer] fixture gives
    the score 666, whose terms are tier LOW, ceiling 1000.0, rate 0.025. *)
Theorem good_payer_composed :
  _calculate_credit_score good_payer_metrics = 666 /\
  _determine_loan_terms (_calculate_credit_score good_payer_metrics)
  = (LOW, 1000.0, 0.025)%Q.
Proof. split; reflexivity. Qed.

(** ** Loan terms *)

(** The cascade of comparisons is the first-match lookup in the table. *)
Lemma determine_loan_terms_lookup (score : Z) :
  _determine_loan_terms score = table_lookup loan_table score.
Proof.
  unfold _determine_loan_terms, loan_table, table_lookup, loan_table_else.
  destruct (750 <=? score), (600 <=? score), (450 <=? score), (300 <=? score);
    reflexivity.
Qed.

(** C2: the terms are a function of the score alone, the first row of the
    table of section 4.4 whose threshold the score reaches; spelled out,
    one band per row. *)
Theorem loan_terms_table (score : Z) :
  _determine_loan_terms score = table_lookup loan_table score /\
  (750 <= score -> _determine_loan_terms score = (LOW, 2000.0, 0.02)%Q) /\
  (600 <= score < 750 -> _determine_loan_terms score = (LOW, 1000.0, 0.025)%Q) /\
  (450 <= score < 600 -> _determine_loan_terms score = (MEDIUM, 500.0, 0.04)%Q) /\
  (300 <= score < 450 -> _determine_loan_terms score = (MEDIUM, 200.0, 0.06)%Q) /\
  (score < 300 -> _determine_loan_terms score = (HIGH, 0.0, 0.10)%Q).
Proof.
  split; [apply determine_loan_terms_lookup|].
  unfold _determine_loan_terms.
  destruct (Z.leb_spec 750 score), (Z.leb_spec 600 score),
    (Z.leb_spec 450 score), (Z.leb_spec 300 score);
    repeat split; intros; solve [reflexivity | lia].
Qed.

Lemma loan_terms_table_witness :
  600 <= 666 < 750 /\ _determine_loan_terms 666 = (LOW, 1000.0, 0.025)%Q.
Proof.
  split; [lia|].
  apply (proj1 (proj2 (proj2 (loan_terms_table 666)))). lia.
Defined.

(** C3, the claim as stated fails at 749: that score is in the second
    band of the table, and none of its three terms is the one claimed. *)
Lemma boundary_749_counterexample :
  _determine_loan_terms 749 = (LOW, 1000.0, 0.025)%Q /\
  LOW <> MEDIUM /\ ~ (1000.0 == 500.0)%Q /\ ~ (0.025 == 0.04)%Q.
Proof. repeat split; [discriminate | vm_compute; discriminate ..]. Qed.

(** C3, amended: 750 gives LOW, 2000.0, 0.02; 749 gives LOW, 1000.0,
    0.025; 300 gives MEDIUM, 200.0, 0.06; 299 gives HIGH, 0.0, 0.10. *)
Theorem boundary_scores :
  _determine_loan_terms 750 = (LOW, 2000.0, 0.02)%Q /\
  _determine_loan_terms 749 = (LOW, 1000.0, 0.025)%Q /\
  _determine_loan_terms 300 = (MEDIUM, 200.0, 0.06)%Q /\
  _determine_loan_terms 299 = (HIGH, 0.0, 0.10)%Q.
Proof. repeat split. Qed.

(** ** Orchestrator *)

Section OrchestratorFacts.
Variable fromisoformat : string -> option datetime.
Variable float_of_str : string -> option Q.

Local Abbreviation fetch := (_fetch_wallet_transactions fromisoformat float_of_str).
Local Abbreviation analyze := (analyze_wallet fromisoformat float_of_str).

(** The two results of [analyze_wallet], by the history fetched. *)
Lemma analyze_wallet_empty now now' call address :
  fetch now call address = [] ->
  analyze now now' call address = _create_new_user_score.
Proof. intros H. unfold analyze_wallet. rewrite H. reflexivity. Qed.

Lemma analyze_wallet_nonempty now now' call address :
  fetch now call address <> [] ->
  let m := _calculate_wallet_metrics now' (fetch now call address) address in
  let s := _calculate_credit_score m in
  score (analyze now now' call address) = s /\
  metrics (analyze now now' call address) = m /\
  loan_terms (analyze now now' call address) = _determine_loan_terms s /\
  recommendations (analyze now now' call address) = _generate_recommendations m s.
Proof.
  intros H m s. subst m s. unfold analyze_wallet, loan_terms.
  destruct (fetch now call address) as [|tx txs]; [done|].
  destruct (_determine_loan_terms _) as [[tier ceiling] rate].
  done.
Qed.

(** A failed query is an empty history. *)
Lemma fetch_failure now address :
  fetch now NotFoundError address = [] /\
  fetch now OtherException address = [] /\
  fetch now (Records []) address = [].
Proof. done. Qed.
End OrchestratorFacts.

(** C4: when the ledger query fails, finds no account or returns no
    record, and whenever the history fetched is empty, the adapter yields
    the empty list, not an error, and the analysis is the fixed new-user
    result: score 250, tier HIGH, ceiling 0.0, rate 0.10, metrics all
    zero, three recommendations. *)
Theorem new_user_result
    (fromisoformat : string -> option datetime) (float_of_str : string -> option Q)
    (now now' : Z) (call : call_result) (address : string) :
  call = NotFoundError \/ call = OtherException \/ call = Records [] \/
  _fetch_wallet_transactions fromisoformat float_of_str now call address = [] ->
  let r := analyze_wallet fromisoformat float_of_str now now' call address in
  _fetch_wallet_transactions fromisoformat float_of_str now call address = [] /\
  r = _create_new_user_score /\
  score r = 250 /\ risk_level r = HIGH /\
  max_loan_amount r = 0.0%Q /\ interest_rate r = 0.10%Q /\
  (forall f, feature_get f (metrics r) == 0)%Q /\
  transaction_count_3m (metrics r) = 0 /\
  length (recommendations r) = 3%nat.
Proof.
  intros H r.
  assert (E : _fetch_wallet_transactions fromisoformat float_of_str now call address = []).
  { destruct H as [-> | [-> | [-> | H]]]; done. }
  subst r. rewrite (analyze_wallet_empty _ _ _ now' _ _ E).
  repeat split; try done. intros []; reflexivity.
Qed.

Lemma new_user_result_witness :
  score (analyze_wallet sample_fromisoformat sample_float sample_now sample_now
           NotFoundError sample_wallet) = 250.
Proof.
  apply (new_user_result sample_fromisoformat sample_float sample_now sample_now
           NotFoundError sample_wallet).
  left. reflexivity.
Defined.

(** C7: in every result of the analysis, the new-user one included, tier,
    ceiling and rate are the terms that the lookup of section 4.4 gives
    for the score the result carries. *)
Theorem terms_consistent
    (fromisoformat : string -> option datetime) (float_of_str : string -> option Q)
    (now now' : Z) (call : call_result) (address : string) :
  let r := analyze_wallet fromisoformat float_of_str now now' call address in
  loan_terms r = _determine_loan_terms (score r) /\
  loan_terms r = table_lookup loan_table (score r).
Proof.
  intros r.
  assert (E : loan_terms r = _determine_loan_terms (score r)).
  { subst r.
    destruct (decide (_fetch_wallet_transactions fromisoformat float_of_str
                        now call address = [])) as [H|H].
    - rewrite (analyze_wallet_empty _ _ _ now' _ _ H). reflexivity.
    - destruct (analyze_wallet_nonempty _ _ _ now' _ _ H) as (-> & _ & -> & _).
      reflexivity. }
  split; [exact E|]. rewrite E. apply determine_loan_terms_lookup.
Qed.

(** ** Parser and ledger adapter *)

Section ParserFacts.
Variable fromisoformat : string -> option datetime.
Variable float_of_str : string -> option Q.

Local Abbreviation parse := (_parse_payment_operation fromisoformat float_of_str).
Local Abbreviation wf := (well_formed fromisoformat float_of_str).
Local Abbreviation loop := (fetch_loop fromisoformat float_of_str).
Local Abbreviation fetch := (_fetch_wallet_transactions fromisoformat float_of_str).

(** The three kinds the adapter lets through are kinds the parser
    takes up. *)
Lemma payment_family_recognised (op_type : scalar) :
  is_payment_family op_type = true -> recognised op_type = true.
Proof.
  unfold is_payment_family, recognised, eq_str. intros H.
  repeat (apply orb_prop in H; destruct H as [H|H]);
    apply bool_decide_eq_true in H; subst; reflexivity.
Qed.

(** A well-formed record is parsed, and its success flag is the one of
    the record, [True] when the record has none. *)
Lemma parse_well_formed op address :
  wf op address -> exists tx,
    parse op address = Some tx /\
    successful tx = default (SBool true) (op_fields op !! "successful").
Proof.
  intros ([ts Hts] & [i Hi] & ty & from & Hty & Hrec & Hfrom & [to Hto] & Hbranch).
  unfold _parse_payment_operation. cbn zeta.
  rewrite Hty, Hts, Hfrom, Hto, Hi. cbn [mbind option_bind].
  unfold recognised in Hrec.
  destruct (eq_str ty "payment") eqn:Epay; cbn [orb] in *.
  - destruct Hbranch as ([a Ha] & [k Hk]). rewrite Ha, Hk. cbn. eauto.
  - apply bool_decide_eq_true in Hrec. rewrite Hrec. cbn [mbind option_bind].
    destruct (eq_str from address); cbn [negb] in Hbranch;
      destruct Hbranch as ([a Ha] & [k Hk]); rewrite Ha, Hk; cbn; eauto.
Qed.

(** The parser returns a transaction on the well-formed records only. *)
Lemma parse_Some_well_formed op address tx :
  parse op address = Some tx -> wf op address.
Proof.
  unfold _parse_payment_operation, well_formed, recognised. cbn zeta.
  destruct (op_fields op !! "type") as [ty|]; [|discriminate].
  destruct (parse_created_at fromisoformat op) as [ts|]; [|discriminate].
  cbn [mbind option_bind].
  destruct (eq_str ty "payment") eqn:Epay.
  - destruct (op_fields op !! "from") as [from|]; [|discriminate].
    destruct (op_fields op !! "to") as [to|]; [|discriminate].
    cbn [mbind option_bind].
    destruct (op_fields op !! "amount" ≫= py_float float_of_str) as [a|] eqn:Ea;
      [|discriminate].
    cbn [mbind option_bind].
    destruct (op_fields op !! "asset_type") as [k|]; [|discriminate].
    cbn [mbind option_bind].
    destruct (op_fields op !! "id") as [i|]; [|discriminate].
    intros _. split; [by exists ts|]. split; [by exists i|].
    exists ty, from. rewrite Epay. cbn [orb].
    split; [reflexivity|]. split; [reflexivity|]. split; [reflexivity|].
    split; [by exists to|]. split; [by exists a | by exists k].
  - destruct (str_in "path_payment" ty) as [[|]|] eqn:Ein; try discriminate.
    cbn [mbind option_bind].
    destruct (op_fields op !! "from") as [from|]; [|discriminate].
    destruct (op_fields op !! "to") as [to|]; [|discriminate].
    cbn [mbind option_bind].
    destruct (eq_str from address) eqn:Efrom.
    + destruct (op_fields op !! "source_amount" ≫= py_float float_of_str)
        as [a|] eqn:Ea; [|discriminate].
      cbn [mbind option_bind].
      destruct (op_fields op !! "source_asset_type") as [k|]; [|discriminate].
      cbn [mbind option_bind].
      destruct (op_fields op !! "id") as [i|]; [|discriminate].
      intros _. split; [by exists ts|]. split; [by exists i|].
      exists ty, from. rewrite Epay, Efrom. cbn [orb negb].
      split; [reflexivity|]. split; [by apply bool_decide_eq_true|].
      split; [reflexivity|].
      split; [by exists to|]. split; [by exists a | by exists k].
    + destruct (op_fields op !! "amount" ≫= py_float float_of_str)
        as [a|] eqn:Ea; [|discriminate].
      cbn [mbind option_bind].
      destruct (op_fields op !! "asset_type") as [k|]; [|discriminate].
      cbn [mbind option_bind].
      destruct (op_fields op !! "id") as [i|]; [|discriminate].
      intros _. split; [by exists ts|]. split; [by exists i|].
      exists ty, from. rewrite Epay, Efrom. cbn [orb negb].
      split; [reflexivity|]. split; [by apply bool_decide_eq_true|].
      split; [reflexivity|].
      split; [by exists to|]. split; [by exists a | by exists k].
Qed.
(** What the parser discards: the kinds of neither branch, and the
    records whose timestamp does not parse. *)
Lemma parse_unrecognised op address op_type :
  op_fields op !! "type" = Some op_type -> recognised op_type = false ->
  parse op address = None.
Proof.
  intros Hty Hrec. unfold _parse_payment_operation, recognised in *. cbn zeta.
  rewrite Hty. cbn [mbind option_bind].
  destruct (parse_created_at fromisoformat op); [|reflexivity].
  cbn [mbind option_bind].
  apply orb_false_iff in Hrec as [-> Hin].
  apply bool_decide_eq_false in Hin.
  destruct (str_in "path_payment" op_type) as [[|]|]; done.
Qed.

Lemma parse_bad_timestamp op address :
  parse_created_at fromisoformat op = None -> parse op address = None.
Proof.
  intros H. unfold _parse_payment_operation. cbn zeta. rewrite H.
  destruct (op_fields op !! "type"); reflexivity.
Qed.

(** The timestamp of a parsed transaction is the one the adapter read. *)
Lemma parse_timestamp op address tx :
  parse op address = Some tx ->
  parse_created_at fromisoformat op = Some (timestamp tx).
Proof.
  unfold _parse_payment_operation. cbn zeta.
  destruct (op_fields op !! "type") as [ty|]; [|discriminate].
  destruct (parse_created_at fromisoformat op) as [ts|]; [|discriminate].
  cbn [mbind option_bind].
  match goal with
  | |- context [mbind _ ?branch] => destruct branch as [[[[[from to] a] k] tt]|]
  end; [|discriminate].
  cbn [mbind option_bind].
  destruct (op_fields op !! "id"); [|discriminate].
  cbn [mbind option_bind]. intros [= <-]. reflexivity.
Qed.

(** One record on which the loop body raises, wherever it stands in the
    batch, and the loop is left by the exception. *)
Lemma fetch_loop_aborts three_months_ago address records acc bad :
  bad ∈ records -> aborts_batch fromisoformat three_months_ago bad ->
  loop three_months_ago address records acc = None.
Proof.
  intros Hin Hbad. revert acc.
  induction records as [|op rest IH]; intros acc.
  - by apply elem_of_nil in Hin.
  - cbn [fetch_loop].
    apply elem_of_cons in Hin as [<-|Hrest].
    + unfold aborts_batch in Hbad.
      destruct (parse_created_at fromisoformat bad) as [d|]; [|reflexivity].
      cbn [mbind option_bind].
      destruct (datetime_lt d three_months_ago) as [[|]|]; [done| |reflexivity].
      cbn [mbind option_bind]. rewrite Hbad. reflexivity.
    + specialize (IH Hrest).
      destruct (parse_created_at fromisoformat op) as [d|]; [|reflexivity].
      cbn [mbind option_bind].
      destruct (datetime_lt d three_months_ago) as [[|]|]; [| |reflexivity];
        cbn [mbind option_bind].
      * apply IH.
      * destruct (op_fields op !! "type") as [ty|]; [|reflexivity].
        cbn [mbind option_bind].
        destruct (is_payment_family ty); [|apply IH].
        destruct (_parse_payment_operation _ _ op address); apply IH.
Qed.

Lemma fetch_aborts now address records bad :
  bad ∈ records ->
  aborts_batch fromisoformat
    {| ticks := now - 90 * microseconds_per_day; aware := false |} bad ->
  fetch now (Records records) address = [].
Proof.
  intros Hin Hbad. unfold _fetch_wallet_transactions.
  rewrite (fetch_loop_aborts _ _ _ _ _ Hin Hbad). reflexivity.
Qed.

(** Only naive datetimes pass the comparison with [three_months_ago]. *)
Lemma fetch_loop_naive three_months_ago address records acc txs :
  aware three_months_ago = false ->
  loop three_months_ago address records acc = Some txs ->
  Forall (fun tx => aware (timestamp tx) = false) acc ->
  Forall (fun tx => aware (timestamp tx) = false) txs.
Proof.
  intros Hnaive. revert acc.
  induction records as [|op rest IH]; intros acc; cbn [fetch_loop].
  - intros [= <-]. done.
  - destruct (parse_created_at fromisoformat op) as [d|] eqn:Ed; [|discriminate].
    cbn [mbind option_bind].
    destruct (datetime_lt d three_months_ago) as [[|]|] eqn:Elt; [| |discriminate];
      cbn [mbind option_bind].
    + apply IH.
    + destruct (op_fields op !! "type") as [ty|]; [|discriminate].
      cbn [mbind option_bind].
      destruct (is_payment_family ty); [|apply IH].
      destruct (_parse_payment_operation _ _ op address) as [tx|] eqn:Etx;
        [|apply IH].
      intros Hloop Hacc. apply (IH _ Hloop).
      apply Forall_app. split; [exact Hacc|].
      apply Forall_singleton.
      apply parse_timestamp in Etx. rewrite Ed in Etx. injection Etx as <-.
      unfold datetime_lt in Elt.
      destruct (bool_decide (aware d = aware three_months_ago)) eqn:Eaw;
        [|discriminate].
      apply bool_decide_eq_true in Eaw. congruence.
Qed.

(** A record of another kind, or one the parser gives up on, is passed
    over. *)
Lemma fetch_loop_skip three_months_ago address op rest acc op_date op_type :
  parse_created_at fromisoformat op = Some op_date ->
  datetime_lt op_date three_months_ago = Some false ->
  op_fields op !! "type" = Some op_type ->
  is_payment_family op_type = false \/ parse op address = None ->
  loop three_months_ago address (op :: rest) acc
  = loop three_months_ago address rest acc.
Proof.
  intros Hd Hlt Hty Hskip. cbn [fetch_loop].
  rewrite Hd. cbn [mbind option_bind]. rewrite Hlt. cbn [mbind option_bind].
  rewrite Hty. cbn [mbind option_bind].
  destruct Hskip as [-> | ->]; [reflexivity|].
  destruct (is_payment_family op_type); reflexivity.
Qed.
End ParserFacts.


(** C9, on the sample records: the two good payments alone give two
    transactions; the parser discards the record dated ["yesterday"]
    without raising; the same record between the two good ones empties
    the whole result, because the adapter reads the timestamp before it
    calls the parser. *)
Theorem bad_timestamp_aborts_batch :
  _fetch_wallet_transactions sample_fromisoformat sample_float sample_now
    (Records [sample_payment; sample_receipt]) sample_wallet
  = [sample_payment_tx; sample_receipt_tx] /\
  _parse_payment_operation sample_fromisoformat sample_float
    sample_bad_timestamp sample_wallet = None /\
  _fetch_wallet_transactions sample_fromisoformat sample_float sample_now
    (Records [sample_payment; sample_bad_timestamp; sample_receipt]) sample_wallet
  = [].
Proof. repeat split; vm_compute; reflexivity. Qed.

(** The same loss on a record dated as Horizon dates them: its datetime
    is aware and cannot be compared with the naive [three_months_ago]. *)
Lemma zulu_timestamp_aborts_batch :
  _fetch_wallet_transactions sample_fromisoformat sample_float sample_now
    (Records [sample_payment; sample_zulu]) sample_wallet = [].
Proof. vm_compute. reflexivity. Qed.

(** A record of another kind in the batch changes nothing. *)
Lemma other_kind_is_skipped :
  _fetch_wallet_transactions sample_fromisoformat sample_float sample_now
    (Records [sample_create_account; sample_payment; sample_receipt]) sample_wallet
  = [sample_payment_tx; sample_receipt_tx].
Proof. vm_compute. reflexivity. Qed.

(** ** Success flag *)

Lemma successful_rows_snoc (address : string) (others : list TransactionData)
    (tx : TransactionData) :
  successful tx = SBool true ->
  length (successful_rows (map (make_row address) (others ++ [tx])))
  = S (length (successful_rows (map (make_row address) others))).
Proof.
  intros H. unfold successful_rows.
  rewrite map_app, filter_app, length_app. cbn [map].
  rewrite filter_cons_True by (cbn; rewrite H; reflexivity).
  cbn. lia.
Qed.

Lemma wallet_metrics_count (now : Z) (txs : list TransactionData) (address : string) :
  transaction_count_3m (_calculate_wallet_metrics now txs address)
  = Z.of_nat (length (successful_rows (map (make_row address) txs))).
Proof. destruct txs; reflexivity. Qed.

Lemma wallet_metrics_punctuality (now : Z) (txs : list TransactionData)
    (address : string) :
  txs <> [] ->
  (payment_punctuality (_calculate_wallet_metrics now txs address)
   == inject_Z (transaction_count_3m (_calculate_wallet_metrics now txs address))
      / Q_of_nat (length txs))%Q.
Proof.
  intros H. destruct txs as [|tx txs]; [done|].
  cbn -[successful_rows Q_of_nat Qdiv]. rewrite length_map. reflexivity.
Qed.


Lemma sample_payment_well_formed :
  well_formed sample_fromisoformat sample_float sample_payment sample_wallet.
Proof.
  split; [by eexists|]. split; [by eexists|].
  exists (SStr "payment"), (SStr "GWALLET").
  split; [reflexivity|]. split; [reflexivity|]. split; [reflexivity|].
  split; [by eexists|]. split; by eexists.
Defined.


(** ** Usage frequency *)

Lemma foldl_min_spec (rest : list row) (acc : Z) :
  let m := foldl (fun acc r => Z.min acc (ticks (row_timestamp r))) acc rest in
  (m = acc \/ m ∈ stamps rest) /\ m <= acc /\ forall t, t ∈ stamps rest -> m <= t.
Proof.
  revert acc. induction rest as [|r rest IH]; intros acc; cbn.
  - split; [by left|]. split; [lia|]. intros t Ht. by apply elem_of_nil in Ht.
  - destruct (IH (Z.min acc (ticks (row_timestamp r)))) as (Hin & Hle & Hall).
    split; [|split].
    + destruct Hin as [Hin|Hin].
      * destruct (Z.min_spec acc (ticks (row_timestamp r))) as [[_ E]|[_ E]].
        -- left. congruence.
        -- right. rewrite Hin, E. apply list_elem_of_here.
      * right. by apply list_elem_of_further.
    + lia.
    + intros t Ht. apply elem_of_cons in Ht as [->|Ht]; [lia|by apply Hall].
Qed.

Lemma foldl_max_spec (rest : list row) (acc : Z) :
  let m := foldl (fun acc r => Z.max acc (ticks (row_timestamp r))) acc rest in
  (m = acc \/ m ∈ stamps rest) /\ acc <= m /\ forall t, t ∈ stamps rest -> t <= m.
Proof.
  revert acc. induction rest as [|r rest IH]; intros acc; cbn.
  - split; [by left|]. split; [lia|]. intros t Ht. by apply elem_of_nil in Ht.
  - destruct (IH (Z.max acc (ticks (row_timestamp r)))) as (Hin & Hle & Hall).
    split; [|split].
    + destruct Hin as [Hin|Hin].
      * destruct (Z.max_spec acc (ticks (row_timestamp r))) as [[_ E]|[_ E]].
        -- right. rewrite Hin, E. apply list_elem_of_here.
        -- left. congruence.
      * right. by apply list_elem_of_further.
    + lia.
    + intros t Ht. apply elem_of_cons in Ht as [->|Ht]; [lia|by apply Hall].
Qed.

Lemma min_ticks_earliest (first : row) (rest : list row) (earliest : Z) :
  earliest ∈ stamps (first :: rest) ->
  (forall t, t ∈ stamps (first :: rest) -> earliest <= t) ->
  min_ticks first rest = earliest.
Proof.
  intros Hin Hle. unfold min_ticks.
  destruct (foldl_min_spec rest (ticks (row_timestamp first))) as (Hm & Hacc & Hall).
  cbn zeta in *.
  set (m := foldl _ _ rest) in *.
  assert (m ∈ stamps (first :: rest)) as Hm'.
  { cbn. destruct Hm as [->|Hm]; [apply list_elem_of_here|by apply list_elem_of_further]. }
  assert (m <= earliest).
  { cbn in Hin. apply elem_of_cons in Hin as [->|Hin]; [exact Hacc|by apply Hall]. }
  specialize (Hle m Hm'). lia.
Qed.

Lemma max_ticks_latest (first : row) (rest : list row) (latest : Z) :
  latest ∈ stamps (first :: rest) ->
  (forall t, t ∈ stamps (first :: rest) -> t <= latest) ->
  max_ticks first rest = latest.
Proof.
  intros Hin Hle. unfold max_ticks.
  destruct (foldl_max_spec rest (ticks (row_timestamp first))) as (Hm & Hacc & Hall).
  cbn zeta in *.
  set (m := foldl _ _ rest) in *.
  assert (m ∈ stamps (first :: rest)) as Hm'.
  { cbn. destruct Hm as [->|Hm]; [apply list_elem_of_here|by apply list_elem_of_further]. }
  assert (latest <= m).
  { cbn in Hin. apply elem_of_cons in Hin as [->|Hin]; [exact Hacc|by apply Hall]. }
  specialize (Hle m Hm'). lia.
Qed.

(** C8: on a non-empty frame, whatever rows hold the earliest and the
    latest timestamp, [usage_frequency] is the number of rows divided by
    [max (days / 30, 1)], [days] being the whole days from the earliest
    to the latest; the divisor is at least 1, and it is 1 when the span
    is zero, as it is for a single transaction. *)
Theorem usage_frequency_span (df : list row) (earliest latest : Z) :
  df <> [] ->
  earliest ∈ stamps df -> latest ∈ stamps df ->
  (forall t, t ∈ stamps df -> earliest <= t <= latest) ->
  let months := Qmax (inject_Z (days_between latest earliest) / 30) 1 in
  (1 <= months)%Q /\
  (_calculate_usage_frequency df == Q_of_nat (length df) / months)%Q /\
  (latest = earliest ->
   (months == 1)%Q /\ (_calculate_usage_frequency df == Q_of_nat (length df) / 1)%Q) /\
  (length df = 1%nat -> latest = earliest).
Proof.
  intros Hne He Hl Hall months.
  destruct df as [|first rest]; [done|].
  assert (Hfreq : (_calculate_usage_frequency (first :: rest)
                   == Q_of_nat (length (first :: rest)) / months)%Q).
  { unfold _calculate_usage_frequency.
    rewrite (min_ticks_earliest first rest earliest He) by (intros t Ht; apply Hall, Ht).
    rewrite (max_ticks_latest first rest latest Hl) by (intros t Ht; apply Hall, Ht).
    cbn zeta. rewrite py_max_Qmax. reflexivity. }
  split; [apply Q.le_max_r|]. split; [exact Hfreq|]. split.
  - intros ->.
    assert (Hm : (months == 1)%Q).
    { subst months. unfold days_between. rewrite Z.sub_diag. reflexivity. }
    split; [exact Hm|]. rewrite Hfreq, Hm. reflexivity.
  - intros Hlen. destruct rest; [|discriminate]. cbn in He, Hl.
    apply list_elem_of_singleton in He, Hl. congruence.
Qed.

Lemma usage_frequency_span_witness :
  sample_df <> [] /\
  (_calculate_usage_frequency sample_df
   == Q_of_nat 2 / Qmax (inject_Z 45 / 30) 1)%Q.
Proof.
  split; [discriminate|].
  apply (usage_frequency_span sample_df 1714564800000000 1718474400000000).
  - discriminate.
  - apply list_elem_of_here.
  - apply list_elem_of_further, list_elem_of_here.
  - intros t Ht. cbn in Ht.
    apply elem_of_cons in Ht as [->|Ht]; [lia|].
    apply list_elem_of_singleton in Ht as ->. lia.
Defined.

(** * Further properties of the engine and of the API server *)

(** ** Arithmetic on counts and sums *)

(** Division by a numeral as a product, for [lra]. *)
Ltac const_div :=
  unfold Qdiv in *;
  repeat match goal with
         | |- context [Qinv ?c] =>
             let v := eval vm_compute in (Qinv c) in change (Qinv c) with v
         | H : context [Qinv ?c] |- _ =>
             let v := eval vm_compute in (Qinv c) in change (Qinv c) with v in H
         end.

Lemma Q_of_nat_le (n k : nat) : (n <= k)%nat <-> (Q_of_nat n <= Q_of_nat k)%Q.
Proof. unfold Q_of_nat. rewrite <- Zle_Qle. lia. Qed.

Lemma Q_of_nat_nonneg (n : nat) : (0 <= Q_of_nat n)%Q.
Proof. apply (Q_of_nat_le 0 n). lia. Qed.

Lemma Q_of_nat_pos (n : nat) : (0 < n)%nat -> (1 <= Q_of_nat n)%Q.
Proof. intros H. apply (Q_of_nat_le 1 n). lia. Qed.

Lemma py_min_cases (a b : Q) :
  ((a <= b)%Q /\ py_min a b = a) \/ ((b < a)%Q /\ py_min a b = b).
Proof. unfold py_min. destruct (Qlt_le_dec b a); [right|left]; done. Qed.

Lemma py_max_ge_l (a b : Q) : (a <= py_max a b)%Q.
Proof. unfold py_max. destruct (Qlt_le_dec a b); lra. Qed.

Lemma py_max_l (a b : Q) : (b <= a)%Q -> py_max a b = a.
Proof. unfold py_max. intros H. destruct (Qlt_le_dec a b); [lra|reflexivity]. Qed.

Lemma Qdiv_nonneg (a b : Q) : (0 <= a)%Q -> (0 < b)%Q -> (0 <= a / b)%Q.
Proof. intros Ha Hb. apply Qle_shift_div_l; lra. Qed.

Lemma series_sum_nonneg (l : list Q) :
  Forall (fun q => (0 <= q)%Q) l -> (0 <= series_sum l)%Q.
Proof.
  induction 1 as [|q l Hq _ IH]; cbn; [lra|]. unfold series_sum in IH. lra.
Qed.

Lemma series_sum_split (P : row -> bool) (f : row -> Q) (df : list row) :
  (series_sum (map f df)
   == series_sum (map f (filter (fun r => P r = true) df))
      + series_sum (map f (filter (fun r => P r = false) df)))%Q.
Proof.
  induction df as [|r df IH]; [cbn; lra|].
  rewrite !filter_cons. cbn [map]. unfold series_sum in *. cbn [foldr].
  destruct (P r) eqn:E; repeat case_decide; try done; cbn [map foldr]; lra.
Qed.

Lemma filter_length_all {A} (P : A -> Prop) `{forall x, Decision (P x)} (l : list A) :
  length (filter P l) = length l <-> Forall P l.
Proof.
  split.
  - intros Hlen. apply Forall_forall. intros x Hx.
    destruct (decide (P x)) as [|Hn]; [done|].
    pose proof (length_filter_lt P l x Hx Hn). lia.
  - induction 1 as [|x l Hx _ IH]; [done|].
    rewrite filter_cons_True by done. cbn. by rewrite IH.
Qed.

Lemma nunique_nonempty `{EqDecision A} (l : list A) :
  l <> [] -> (1 <= nunique (fun _ => false) l)%nat.
Proof.
  intros H. unfold nunique.
  destruct l as [|x l]; [done|].
  assert (Hin : x ∈ remove_dups (filter (fun _ : A => false = false) (x :: l))).
  { apply elem_of_remove_dups, list_elem_of_filter. split; [done|apply list_elem_of_here]. }
  destruct (remove_dups _); [by apply elem_of_nil in Hin|cbn; lia].
Qed.

(** ** Score composer and loan terms *)

Lemma score_bounds_of_nonneg (m : WalletMetrics) :
  (0 <= final_score m)%Q -> 0 <= _calculate_credit_score m <= 1000.
Proof.
  intros H. unfold _calculate_credit_score. split.
  - apply py_int_nonneg, py_min_glb; lra.
  - apply (Z.le_trans _ (py_int 1000)); [apply py_int_mono, py_min_le_r|].
    vm_compute. discriminate.
Qed.

(** X1: whatever the metrics, negative or huge, the score never exceeds
    1000. *)
Theorem score_at_most_1000 (m : WalletMetrics) :
  _calculate_credit_score m <= 1000.
Proof.
  unfold _calculate_credit_score.
  apply (Z.le_trans _ (py_int 1000)); [apply py_int_mono, py_min_le_r|].
  vm_compute. discriminate.
Qed.

(** X2: a higher score never gets a lower ceiling nor a higher rate. *)
Theorem loan_terms_monotone (score score' : Z) :
  score <= score' ->
  (snd (fst (_determine_loan_terms score))
   <= snd (fst (_determine_loan_terms score')))%Q /\
  (snd (_determine_loan_terms score') <= snd (_determine_loan_terms score))%Q.
Proof.
  intros H. unfold _determine_loan_terms.
  destruct (Z.leb_spec 750 score); [destruct (Z.leb_spec 750 score'); [|lia]|];
  [|destruct (Z.leb_spec 600 score)];
  [| destruct (Z.leb_spec 750 score'); [|destruct (Z.leb_spec 600 score'); [|lia]] |].
  all: repeat match goal with
       | |- context [Z.leb ?a ?b] => destruct (Z.leb_spec a b); try lia
       end.
  all: cbn [fst snd]; split; vm_compute; discriminate.
Qed.

Lemma loan_terms_monotone_witness :
  449 <= 450 /\
  (snd (fst (_determine_loan_terms 449)) <= snd (fst (_determine_loan_terms 450)))%Q.
Proof. split; [lia|]. apply (loan_terms_monotone 449 450). lia. Defined.

Lemma high_risk_below_300 (score : Z) :
  fst (fst (_determine_loan_terms score)) = HIGH <-> score < 300.
Proof.
  unfold _determine_loan_terms.
  destruct (Z.leb_spec 750 score), (Z.leb_spec 600 score),
    (Z.leb_spec 450 score), (Z.leb_spec 300 score); cbn [fst snd];
    split; intros; first [lia | discriminate | reflexivity].
Qed.

(** ** Advisor *)

Ltac advisor_cases m score :=
  unfold _generate_recommendations; cbn zeta;
  destruct (Qlt_le_dec (usage_frequency m) 5) as [Hf|Hf],
    (Qlt_le_dec (diversification_score m) 0.5) as [Hd|Hd],
    (Qlt_le_dec (payment_punctuality m) 0.9) as [Hp|Hp],
    (Qlt_le_dec (avg_balance m) 100) as [Hb|Hb],
    (Z.ltb_spec score 300) as [Hs|Hs]; cbn [app].

Ltac pick_sublist :=
  repeat first [ apply sublist_nil | apply sublist_skip | apply sublist_cons ].

(** X3: the advisor returns between one and five messages: the praise
    alone, or some of the five advice messages in the order of the
    rules; the praise exactly when no rule fires. *)
Theorem recommendations_shape (m : WalletMetrics) (score : Z) :
  let r := _generate_recommendations m score in
  (1 <= length r <= 5)%nat /\
  (r = [praise_message] \/ r `sublist_of` advice_messages) /\
  (r = [praise_message] <->
   (5 <= usage_frequency m)%Q /\ (0.5 <= diversification_score m)%Q /\
   (0.9 <= payment_punctuality m)%Q /\ (100 <= avg_balance m)%Q /\
   300 <= score).
Proof.
  advisor_cases m score;
    (split; [cbn; lia|]);
    (split; [first [left; reflexivity | right; unfold advice_messages; pick_sublist]|]);
    (split; [first [discriminate | intros _; repeat split; first [assumption | lra | lia]]
            | first [reflexivity | intros (? & ? & ? & ? & ?); exfalso; first [lra | lia]]]).
Qed.

(** The last rule fires below 300 and its message is no other rule's. *)
Lemma history_advice_iff (m : WalletMetrics) (score : Z) :
  history_message ∈ _generate_recommendations m score <-> score < 300.
Proof.
  unfold _generate_recommendations, history_message. cbn zeta.
  destruct (Z.ltb_spec score 300) as [Hs|Hs].
  - split; [intros _; exact Hs|intros _].
    match goal with
    | |- context [?l ++ [?x]] =>
        generalize l; intros l'; destruct (l' ++ [x]) eqn:E;
        [by destruct l'|rewrite <- E; apply elem_of_app; right; apply list_elem_of_here]
    end.
  - split; [|lia]. intros H. exfalso.
    destruct (Qlt_le_dec (usage_frequency m) 5),
      (Qlt_le_dec (diversification_score m) 0.5),
      (Qlt_le_dec (payment_punctuality m) 0.9),
      (Qlt_le_dec (avg_balance m) 100); cbn [app] in H;
      repeat (apply elem_of_cons in H as [H|H]; [discriminate H|]);
      apply elem_of_nil in H; exact H.
Qed.

(** X4: the tier is HIGH exactly when the advice to keep building a
    history is among the recommendations computed for the same score. *)
Theorem high_risk_iff_history_advice (m : WalletMetrics) (score : Z) :
  fst (fst (_determine_loan_terms score)) = HIGH <->
  history_message ∈ _generate_recommendations m score.
Proof. rewrite high_risk_below_300, history_advice_iff. reflexivity. Qed.

(** ** Feature extractor *)

(** The loop of [_calculate_volume_metrics] adds the value of each row. *)
Lemma volume_foldl (df : list row) (volume : Q) :
  (foldl (fun volume r =>
            if eq_str (row_asset r) "XLM"
            then volume + row_amount r * 0.10
            else volume + row_amount r) volume df
   == volume + series_sum (map row_value df))%Q.
Proof.
  revert volume. induction df as [|r df IH]; intros volume; cbn [foldl map].
  - cbn. lra.
  - rewrite IH. unfold series_sum, row_value. cbn [foldr].
    destruct (eq_str (row_asset r) "XLM"); lra.
Qed.




(** X7: the network activity of a history depends on the number of its
    transactions only, not on their identifiers, the wallet or the
    clock: it is that number over 50, capped at 1. *)
Theorem network_activity_counts_rows (now now' : Z)
    (txs txs' : list TransactionData) (address address' : string) :
  length txs = length txs' ->
  network_activity (_calculate_wallet_metrics now txs address)
  = network_activity (_calculate_wallet_metrics now' txs' address') /\
  (network_activity (_calculate_wallet_metrics now txs address)
   == Qmin (Q_of_nat (length txs) / 50) 1)%Q.
Proof.
  intros Hlen. split.
  - destruct txs as [|tx txs], txs' as [|tx' txs']; try discriminate; [reflexivity|].
    cbn [_calculate_wallet_metrics network_activity _calculate_network_activity map].
    cbn [length] in *. rewrite !length_map. congruence.
  - destruct txs as [|tx txs]; [reflexivity|].
    cbn [_calculate_wallet_metrics network_activity _calculate_network_activity map].
    rewrite py_min_Qmin. cbn [length]. rewrite !length_map. reflexivity.
Qed.

Lemma network_activity_counts_rows_witness :
  length [sample_payment_tx; sample_receipt_tx]
  = length [sample_payment_tx; sample_payment_tx] /\
  network_activity (_calculate_wallet_metrics sample_now
                      [sample_payment_tx; sample_receipt_tx] sample_wallet)
  = network_activity (_calculate_wallet_metrics 0
                        [sample_payment_tx; sample_payment_tx] "GOTHER").
Proof.
  split; [reflexivity|].
  apply (network_activity_counts_rows sample_now 0
           [sample_payment_tx; sample_receipt_tx]
           [sample_payment_tx; sample_payment_tx] sample_wallet "GOTHER").
  reflexivity.
Defined.

(** The age score of a non-empty frame, by the age in days of its oldest
    row. *)
Lemma age_score_cases (now : Z) (first : row) (rest : list row) :
  let days := days_between now (min_ticks first rest) in
  (days < 30 /\ _calculate_age_score now (first :: rest) = 0.3%Q) \/
  (30 <= days /\
   _calculate_age_score now (first :: rest) = py_min (inject_Z days / inject_Z 365) 1).
Proof.
  intros days. unfold _calculate_age_score. fold days. cbn zeta.
  unfold NORMALIZATION_LIMITS.min_age_days, NORMALIZATION_LIMITS.optimal_age_days.
  destruct (Z.ltb_spec days 30); [left|right]; done.
Qed.

Lemma min_ticks_lower_bound (first : row) (rest : list row) (bound : Z) :
  (forall t, t ∈ stamps (first :: rest) -> bound <= t) ->
  bound <= min_ticks first rest.
Proof.
  intros H. unfold min_ticks.
  destruct (foldl_min_spec rest (ticks (row_timestamp first))) as ([Hm|Hm] & _ & _);
    cbn zeta in Hm.
  - rewrite Hm. apply H. apply list_elem_of_here.
  - apply H. by apply list_elem_of_further.
Qed.

(** X8: the age score by the age in whole days of the oldest row: 0.3
    below 30 days, less than 0.3 from 30 to 109 days, 1 from 365 days
    on, and never outside [30/365, 1]. *)
Theorem age_score_by_age (now : Z) (df : list row) (earliest : Z) :
  earliest ∈ stamps df ->
  (forall t, t ∈ stamps df -> earliest <= t) ->
  let days := days_between now earliest in
  (days < 30 -> _calculate_age_score now df = 0.3%Q) /\
  (30 <= days <= 109 -> (_calculate_age_score now df < 0.3)%Q) /\
  (365 <= days -> (_calculate_age_score now df == 1)%Q) /\
  (30 # 365 <= _calculate_age_score now df <= 1)%Q.
Proof.
  intros Hin Hmin days.
  destruct df as [|first rest]; [by apply elem_of_nil in Hin|].
  unfold _calculate_age_score.
  rewrite (min_ticks_earliest first rest earliest Hin Hmin). fold days. cbn zeta.
  unfold NORMALIZATION_LIMITS.min_age_days, NORMALIZATION_LIMITS.optimal_age_days.
  destruct (Z.ltb_spec days 30) as [Hd|Hd].
  - split; [reflexivity|]. split; [lia|]. split; [lia|]. split; vm_compute; discriminate.
  - assert (H30 : (30 <= inject_Z days)%Q) by (rewrite <- (Zle_Qle 30); exact Hd).
    split; [lia|].
    destruct (py_min_cases (inject_Z days / inject_Z 365) 1) as [[Hc ->]|[Hc ->]];
      const_div.
    + split; [|split; [|split]].
      * intros [_ H109]. rewrite (Zle_Qle days 109) in H109.
        change (inject_Z 109) with 109%Q in H109. lra.
      * intros H365. rewrite (Zle_Qle 365 days) in H365.
        change (inject_Z 365) with 365%Q in H365. lra.
      * lra.
      * lra.
    + split; [|split; [|split]].
      * intros [_ H109]. rewrite (Zle_Qle days 109) in H109.
        change (inject_Z 109) with 109%Q in H109. lra.
      * reflexivity.
      * lra.
      * lra.
Qed.

Lemma age_score_by_age_witness :
  1714564800000000 ∈ stamps sample_df /\
  30 <= days_between sample_now 1714564800000000 <= 109 /\
  (_calculate_age_score sample_now sample_df < 0.3)%Q.
Proof.
  split; [apply list_elem_of_here|]. split; [vm_compute; split; discriminate|].
  apply (age_score_by_age sample_now sample_df 1714564800000000).
  - apply list_elem_of_here.
  - intros t Ht. cbn in Ht.
    apply elem_of_cons in Ht as [->|Ht]; [lia|].
    apply list_elem_of_singleton in Ht as ->. lia.
  - vm_compute. split; discriminate.
Defined.

(** X9: on a non-empty frame the usage frequency is positive and at
    most the number of rows. *)
Theorem usage_frequency_bounds (df : list row) :
  df <> [] ->
  (0 < _calculate_usage_frequency df <= Q_of_nat (length df))%Q.
Proof.
  intros Hne. destruct df as [|first rest]; [done|].
  unfold _calculate_usage_frequency. cbn zeta.
  set (months := py_max _ 1).
  assert (Hm : (1 <= months)%Q) by apply py_max_ge_r.
  assert (Hn : (1 <= Q_of_nat (length (first :: rest)))%Q)
    by (apply Q_of_nat_pos; cbn; lia).
  split.
  - apply Qlt_shift_div_l; lra.
  - apply Qle_shift_div_r; [lra|]. nra.
Qed.

Lemma usage_frequency_bounds_witness :
  sample_df <> [] /\
  (0 < _calculate_usage_frequency sample_df <= Q_of_nat (length sample_df))%Q.
Proof. split; [discriminate|]. apply (usage_frequency_bounds sample_df). discriminate. Defined.



Lemma eq_True_iff (v : scalar) : eq_True v = true <-> v = SBool true.
Proof. unfold eq_True. apply bool_decide_eq_true. Qed.

(** X11: punctuality lies between 0 and 1, the count of successful
    transactions between 0 and the length of the history, and on a
    non-empty history punctuality is 1 exactly when every transaction
    carries the flag [True]. *)
Theorem punctuality_bounds (now : Z) (txs : list TransactionData) (address : string) :
  let m := _calculate_wallet_metrics now txs address in
  (0 <= payment_punctuality m <= 1)%Q /\
  0 <= transaction_count_3m m <= Z.of_nat (length txs) /\
  (txs <> [] ->
   ((payment_punctuality m == 1)%Q <-> Forall (fun tx => successful tx = SBool true) txs)).
Proof.
  intros m. subst m.
  destruct txs as [|tx txs].
  - cbn. repeat split; try done; lra.
  - set (all := tx :: txs).
    assert (Hcount : transaction_count_3m (_calculate_wallet_metrics now all address)
                     = Z.of_nat (length (successful_rows (map (make_row address) all))))
      by reflexivity.
    assert (Hp : payment_punctuality (_calculate_wallet_metrics now all address)
                 = (Q_of_nat (length (successful_rows (map (make_row address) all)))
                    / Q_of_nat (length (map (make_row address) all)))%Q)
      by reflexivity.
    rewrite Hcount, Hp. clear Hcount Hp.
    set (df := map (make_row address) all).
    assert (Hlen : length df = length all) by apply length_map.
    pose proof (length_filter (fun r => eq_True (row_successful r) = true) df) as Hle.
    fold (successful_rows df) in Hle.
    assert (Hn : (1 <= Q_of_nat (length df))%Q) by (apply Q_of_nat_pos; rewrite Hlen; cbn; lia).
    pose proof (Q_of_nat_nonneg (length (successful_rows df))) as H0.
    pose proof (proj1 (Q_of_nat_le _ _) Hle) as Hle'.
    split; [split|split; [lia|]].
    + apply Qle_shift_div_l; lra.
    + apply Qle_shift_div_r; lra.
    + intros _. split.
      * intros Heq.
        assert (Heq' : (Q_of_nat (length (successful_rows df)) == Q_of_nat (length df))%Q).
        { assert (Hx : (Q_of_nat (length (successful_rows df))
                        == Q_of_nat (length (successful_rows df)) / Q_of_nat (length df)
                           * Q_of_nat (length df))%Q) by (field; lra).
          rewrite Hx, Heq. lra. }
        assert (Hlen' : length (successful_rows df) = length df).
        { apply Nat.le_antisymm; [exact Hle|]. apply Q_of_nat_le. lra. }
        apply filter_length_all in Hlen'.
        apply Forall_forall. intros t Ht.
        rewrite Forall_forall in Hlen'.
        apply eq_True_iff.
        apply (Hlen' (make_row address t)). subst df. by apply list_elem_of_fmap_2.
      * intros Hall.
        assert (Hlen' : length (successful_rows df) = length df).
        { apply filter_length_all, Forall_forall. intros r Hr. subst df.
          apply list_elem_of_fmap in Hr as (t & -> & Ht).
          rewrite Forall_forall in Hall. apply eq_True_iff. cbn. by apply Hall. }
        rewrite Hlen'. field. lra.
Qed.

Lemma punctuality_bounds_witness :
  [sample_payment_tx; sample_receipt_tx] <> [] /\
  (payment_punctuality
     (_calculate_wallet_metrics sample_now
        [sample_payment_tx; sample_receipt_tx] sample_wallet) == 1)%Q.
Proof.
  split; [discriminate|].
  apply (punctuality_bounds sample_now [sample_payment_tx; sample_receipt_tx]
           sample_wallet); [discriminate|].
  repeat constructor.
Defined.

(** With no negative amount, no feature of the metrics is negative. *)
Lemma frame_nonneg_features (now : Z) (txs : list TransactionData) (address : string) :
  Forall (fun tx => (0 <= amount tx)%Q) txs ->
  nonneg_features (_calculate_wallet_metrics now txs address).
Proof.
  intros Hpos. destruct txs as [|tx txs]; [intros []; cbn; lra|].
  set (all := tx :: txs) in *. set (df := map (make_row address) all).
  assert (Hdf : Forall (fun r => (0 <= row_amount r)%Q) df).
  { subst df. apply Forall_map. eapply Forall_impl; [exact Hpos|]. done. }
  assert (Hne : df <> []) by done.
  assert (Hn : (1 <= Q_of_nat (length df))%Q) by (apply Q_of_nat_pos; cbn; lia).
  intros f.
  assert (E : feature_get f (_calculate_wallet_metrics now all address)
              = match f with
                | Volume => _calculate_volume_metrics df
                | Punctuality =>
                    (Q_of_nat (length (successful_rows df)) / Q_of_nat (length df))%Q
                | Frequency => _calculate_usage_frequency df
                | Diversification => _calculate_diversification_score df
                | Balance => _estimate_average_balance df address
                | AgeScore => _calculate_age_score now df
                | NetworkActivity => _calculate_network_activity df
                end) by (by destruct f).
  rewrite E. clear E. destruct f.
  - unfold _calculate_volume_metrics. rewrite volume_foldl.
    assert (0 <= series_sum (map row_value df))%Q; [|lra].
    apply series_sum_nonneg, Forall_map. eapply Forall_impl; [exact Hdf|].
    intros r Hr. cbn in *. unfold row_value. destruct (eq_str _ _); lra.
  - apply Qdiv_nonneg; [apply Q_of_nat_nonneg|lra].
  - cbn [df all map _calculate_usage_frequency]. cbn zeta.
    apply Qdiv_nonneg; [apply Q_of_nat_nonneg|].
    pose proof (py_max_ge_r
      (inject_Z (days_between
         (max_ticks (make_row address tx) (map (make_row address) txs))
         (min_ticks (make_row address tx) (map (make_row address) txs))) / 30) 1).
    lra.
  - cbn [df all map _calculate_diversification_score].
    assert (H1 : forall n, (0 <= py_min (Q_of_nat n / 3) 1)%Q).
    { intros n. apply py_min_glb; [|lra]. apply Qdiv_nonneg; [apply Q_of_nat_nonneg|lra]. }
    assert (H2 : forall n, (0 <= py_min (Q_of_nat n / 5) 1)%Q).
    { intros n. apply py_min_glb; [|lra]. apply Qdiv_nonneg; [apply Q_of_nat_nonneg|lra]. }
    match goal with
    | |- (0 <= py_min (Q_of_nat ?a / 3) 1 * _ + py_min (Q_of_nat ?b / 5) 1 * _)%Q =>
        pose proof (H1 a); pose proof (H2 b)
    end. lra.
  - cbn [df all map _estimate_average_balance].
    match goal with |- (0 <= py_max ?a ?b)%Q => pose proof (py_max_ge_l a b) as Hmax;
      assert (0 <= a)%Q; [|lra] end.
    assert (0 <= series_sum (map row_amount df))%Q
      by (apply series_sum_nonneg, Forall_map; exact Hdf).
    assert (0 <= series_sum (map row_amount df) / Q_of_nat (length df))%Q
      by (apply Qdiv_nonneg; lra).
    cbn [df all map] in *. lra.
  - destruct (age_score_cases now (make_row address tx) (map (make_row address) txs))
      as [[_ E]|[Hd E]]; cbn [df all map]; rewrite E; [lra|].
    apply py_min_glb; [|lra]. apply Qdiv_nonneg; [|reflexivity].
    rewrite <- (Zle_Qle 0). lia.
  - cbn [df all map _calculate_network_activity].
    apply py_min_glb; [|lra]. apply Qdiv_nonneg; [apply Q_of_nat_nonneg|reflexivity].
Qed.

(** X17: for every history whose amounts are not negative, the score
    composed from its metrics lies in [0, 1000]. *)
Theorem history_score_in_range (now : Z) (txs : list TransactionData)
    (address : string) :
  Forall (fun tx => (0 <= amount tx)%Q) txs ->
  0 <= _calculate_credit_score (_calculate_wallet_metrics now txs address) <= 1000.
Proof.
  intros Hpos.
  apply score_bounds_of_nonneg, final_score_nonneg, frame_nonneg_features, Hpos.
Qed.

Lemma history_score_in_range_witness :
  Forall (fun tx => (0 <= amount tx)%Q) [sample_payment_tx; sample_receipt_tx] /\
  0 <= _calculate_credit_score
         (_calculate_wallet_metrics sample_now
            [sample_payment_tx; sample_receipt_tx] sample_wallet) <= 1000.
Proof.
  assert (H : Forall (fun tx => (0 <= amount tx)%Q)
                [sample_payment_tx; sample_receipt_tx])
    by (repeat constructor; vm_compute; discriminate).
  split; [exact H|].
  apply (history_score_in_range sample_now [sample_payment_tx; sample_receipt_tx]
           sample_wallet H).
Defined.

(** ** Parser, adapter and orchestrator *)

Section AdapterFacts.
Variable fromisoformat : string -> option datetime.
Variable float_of_str : string -> option Q.

Local Abbreviation parse := (_parse_payment_operation fromisoformat float_of_str).
Local Abbreviation loop := (fetch_loop fromisoformat float_of_str).
Local Abbreviation fetch := (_fetch_wallet_transactions fromisoformat float_of_str).
Local Abbreviation analyze := (analyze_wallet fromisoformat float_of_str).

(** What the parser writes into a transaction, read off its last step. *)
Lemma parse_fields op address tx :
  parse op address = Some tx ->
  exists op_type from_addr raw_amount raw_asset,
    op_fields op !! "type" = Some op_type /\
    op_fields op !! "from" = Some from_addr /\
    from_address tx = from_addr /\
    py_float float_of_str raw_amount = Some (amount tx) /\
    asset tx = (if negb (eq_str raw_asset "native") then raw_asset else SStr "XLM") /\
    type tx = (if eq_str op_type "payment"
               then if eq_str from_addr address then "payment" else "receive"
               else if eq_str from_addr address
                    then "path_payment_send" else "path_payment_receive").
Proof.
  unfold _parse_payment_operation. cbn zeta.
  destruct (op_fields op !! "type") as [ty|]; [|discriminate].
  destruct (parse_created_at fromisoformat op) as [ts|]; [|discriminate].
  cbn [mbind option_bind].
  destruct (eq_str ty "payment") eqn:Epay.
  - destruct (op_fields op !! "from") as [from|]; [|discriminate].
    destruct (op_fields op !! "to") as [to|]; [|discriminate].
    cbn [mbind option_bind].
    destruct (op_fields op !! "amount") as [ra|]; [|discriminate].
    cbn [mbind option_bind].
    destruct (py_float float_of_str ra) as [a|] eqn:Ea; [|discriminate].
    cbn [mbind option_bind].
    destruct (op_fields op !! "asset_type") as [k|]; [|discriminate].
    cbn [mbind option_bind].
    destruct (op_fields op !! "id") as [i|]; [|discriminate].
    cbn [mbind option_bind]. intros [= <-]. cbn.
    exists ty, from, ra, k. rewrite Epay. done.
  - destruct (str_in "path_payment" ty) as [[|]|] eqn:Ein; try discriminate.
    cbn [mbind option_bind].
    destruct (op_fields op !! "from") as [from|]; [|discriminate].
    destruct (op_fields op !! "to") as [to|]; [|discriminate].
    cbn [mbind option_bind].
    destruct (eq_str from address) eqn:Efrom.
    + destruct (op_fields op !! "source_amount") as [ra|]; [|discriminate].
      cbn [mbind option_bind].
      destruct (py_float float_of_str ra) as [a|] eqn:Ea; [|discriminate].
      cbn [mbind option_bind].
      destruct (op_fields op !! "source_asset_type") as [k|]; [|discriminate].
      cbn [mbind option_bind].
      destruct (op_fields op !! "id") as [i|]; [|discriminate].
      cbn [mbind option_bind]. intros [= <-]. cbn.
      exists ty, from, ra, k. rewrite Epay, Efrom. done.
    + destruct (op_fields op !! "amount") as [ra|]; [|discriminate].
      cbn [mbind option_bind].
      destruct (py_float float_of_str ra) as [a|] eqn:Ea; [|discriminate].
      cbn [mbind option_bind].
      destruct (op_fields op !! "asset_type") as [k|]; [|discriminate].
      cbn [mbind option_bind].
      destruct (op_fields op !! "id") as [i|]; [|discriminate].
      cbn [mbind option_bind]. intros [= <-]. cbn.
      exists ty, from, ra, k. rewrite Epay, Efrom. done.
Qed.

Lemma eq_str_true (v : scalar) (s : string) : eq_str v s = true <-> v = SStr s.
Proof. unfold eq_str. apply bool_decide_eq_true. Qed.

Lemma parsed_type_asset op address tx :
  parse op address = Some tx ->
  type tx ∈ transaction_types /\ asset tx <> SStr "native".
Proof.
  intros H.
  destruct (parse_fields _ _ _ H)
    as (ty & from & ra & k & Hty & Hfrom & Hf & Ha & Hk & Ht).
  split.
  - rewrite Ht. unfold transaction_types.
    destruct (eq_str ty "payment"), (eq_str from address);
      repeat first [ apply list_elem_of_here | apply list_elem_of_further ].
  - rewrite Hk. destruct (eq_str k "native") eqn:E; cbn [negb]; [discriminate|].
    intros ->. apply not_true_iff_false in E. apply E. by apply eq_str_true.
Qed.


(** X13: a parsed transaction keeps the sender of the record, its type is
    one of the four, its asset is never ["native"], and it is of an
    outgoing type exactly when the sender is the wallet, which is when
    the feature extractor counts it as outgoing. *)
Theorem parsed_direction op address tx :
  parse op address = Some tx ->
  op_fields op !! "from" = Some (from_address tx) /\
  type tx ∈ transaction_types /\
  asset tx <> SStr "native" /\
  (from_address tx = SStr address <-> type tx ∈ ["payment"; "path_payment_send"]) /\
  (row_is_outgoing (make_row address tx) = true
   <-> type tx ∈ ["payment"; "path_payment_send"]).
Proof.
  intros H.
  destruct (parse_fields _ _ _ H)
    as (ty & from & ra & k & Hty & Hfrom & Hf & Ha & Hk & Ht).
  assert (Hdir : eq_str (from_address tx) address = true
                 <-> type tx ∈ ["payment"; "path_payment_send"]).
  { rewrite Ht, Hf.
    destruct (eq_str ty "payment"), (eq_str from address); split; intros Hx;
      try done; try discriminate;
      first [ apply list_elem_of_here
            | apply list_elem_of_further, list_elem_of_here
            | repeat (apply elem_of_cons in Hx as [Hx|Hx]; [discriminate Hx|]);
              by apply elem_of_nil in Hx ]. }
  split; [by rewrite Hf|].
  destruct (parsed_type_asset _ _ _ H) as [Htype Hasset].
  split; [exact Htype|]. split; [exact Hasset|]. split; [|exact Hdir].
  rewrite <- Hdir. symmetry. apply eq_str_true.
Qed.

(** A property of the transactions the parser makes of records dated in
    the window holds of all the adapter returns. *)
Lemma fetch_loop_Forall (P : TransactionData -> Prop) three_months_ago address :
  (forall op op_date tx,
     parse_created_at fromisoformat op = Some op_date ->
     datetime_lt op_date three_months_ago = Some false ->
     parse op address = Some tx -> P tx) ->
  forall records acc txs,
    loop three_months_ago address records acc = Some txs ->
    Forall P acc -> Forall P txs.
Proof.
  intros HP records.
  induction records as [|op rest IH]; intros acc txs; cbn [fetch_loop].
  - intros [= <-]. done.
  - destruct (parse_created_at fromisoformat op) as [d|] eqn:Ed; [|discriminate].
    cbn [mbind option_bind].
    destruct (datetime_lt d three_months_ago) as [[|]|] eqn:Elt; [| |discriminate];
      cbn [mbind option_bind].
    + apply IH.
    + destruct (op_fields op !! "type") as [ty|]; [|discriminate].
      cbn [mbind option_bind].
      destruct (is_payment_family ty); [|apply IH].
      destruct (_parse_payment_operation _ _ op address) as [tx|] eqn:Etx;
        [|apply IH].
      intros Hloop Hacc. apply (IH _ _ Hloop).
      apply Forall_app. split; [exact Hacc|].
      apply Forall_singleton. by apply (HP op d tx).
Qed.

Lemma fetch_Forall (P : TransactionData -> Prop) now call address :
  (forall op op_date tx,
     parse_created_at fromisoformat op = Some op_date ->
     datetime_lt op_date (window_start now) = Some false ->
     parse op address = Some tx -> P tx) ->
  Forall P (fetch now call address).
Proof.
  intros HP. unfold _fetch_wallet_transactions. fold (window_start now).
  destruct call as [| |records]; [done|done|].
  destruct (fetch_loop _ _ _ _ _ _) as [txs|] eqn:Hloop; [|done].
  by eapply fetch_loop_Forall.
Qed.

(** X14: whatever the ledger answers, every transaction the adapter
    returns has a naive timestamp no older than 90 days before [now], one
    of the four types, and an asset other than ["native"]. *)
Theorem fetched_transactions_invariant now call address :
  Forall (fun tx =>
            aware (timestamp tx) = false /\
            now - 90 * microseconds_per_day <= ticks (timestamp tx) /\
            type tx ∈ transaction_types /\
            asset tx <> SStr "native")
         (fetch now call address).
Proof.
  apply fetch_Forall. intros op d tx Hd Hlt Hparse. cbn beta.
  apply parse_timestamp in Hparse as Hts. rewrite Hd in Hts. injection Hts as <-.
  unfold datetime_lt, window_start in Hlt. cbn [aware ticks] in Hlt.
  case_bool_decide as Haw; [|discriminate]. injection Hlt as Hlt.
  apply Z.ltb_ge in Hlt.
  destruct (parsed_type_asset _ _ _ Hparse) as [Hty Hasset].
  done.
Qed.

Lemma fetch_loop_complete three_months_ago address records acc :
  Forall (fun op => ~ aborts_batch fromisoformat three_months_ago op) records ->
  loop three_months_ago address records acc
  = Some (acc ++ omap (fun op => parse op address)
                   (filter (fun op => in_window fromisoformat three_months_ago op
                                      && is_payment_record op = true) records)).
Proof.
  intros Hall. revert acc.
  induction Hall as [|op rest Hop _ IH]; intros acc; cbn [fetch_loop].
  - cbn. by rewrite app_nil_r.
  - rewrite filter_cons. unfold aborts_batch, in_window, is_payment_record in *.
    destruct (parse_created_at fromisoformat op) as [d|]; [|done].
    cbn [mbind option_bind] in *.
    destruct (datetime_lt d three_months_ago) as [[|]|]; [| |done];
      cbn [mbind option_bind andb].
    + rewrite decide_False by done. apply IH.
    + destruct (op_fields op !! "type") as [ty|]; [|done].
      cbn [mbind option_bind].
      destruct (is_payment_family ty).
      * rewrite decide_True by done. cbn [omap list_omap].
        destruct (_parse_payment_operation _ _ op address) as [tx|].
        -- rewrite IH. by rewrite <- app_assoc.
        -- apply IH.
      * rewrite decide_False by done. apply IH.
Qed.

(** X15: one record on which the loop raises empties the result;
    without such a record the adapter returns, in the order of the
    batch, the transactions parsed from the records that are in the
    window and of a payment kind. *)
Theorem fetch_all_or_nothing now address records :
  (forall bad, bad ∈ records ->
     aborts_batch fromisoformat (window_start now) bad ->
     fetch now (Records records) address = []) /\
  (Forall (fun op => ~ aborts_batch fromisoformat (window_start now) op) records ->
   fetch now (Records records) address
   = omap (fun op => parse op address)
       (filter (fun op => in_window fromisoformat (window_start now) op
                          && is_payment_record op = true) records)).
Proof.
  split.
  - intros bad Hin Hbad. by apply (fetch_aborts _ _ _ _ _ bad).
  - intros Hall. unfold _fetch_wallet_transactions.
    fold (window_start now). by rewrite (fetch_loop_complete _ _ _ [] Hall).
Qed.

Lemma fetch_loop_nothing three_months_ago address records acc :
  Forall (fun op => in_window fromisoformat three_months_ago op = false \/
                    is_payment_record op = false \/
                    parse op address = None) records ->
  loop three_months_ago address records acc = None \/
  loop three_months_ago address records acc = Some acc.
Proof.
  intros Hall. revert acc.
  induction Hall as [|op rest Hop _ IH]; intros acc; cbn [fetch_loop]; [by right|].
  unfold in_window, is_payment_record in Hop.
  destruct (parse_created_at fromisoformat op) as [d|]; [|by left].
  cbn [mbind option_bind] in *.
  destruct (datetime_lt d three_months_ago) as [[|]|]; [| |by left];
    cbn [mbind option_bind]; [apply IH|].
  destruct (op_fields op !! "type") as [ty|]; [|by left].
  cbn [mbind option_bind].
  destruct (is_payment_family ty); [|apply IH].
  destruct Hop as [Hop|[Hop|Hop]]; [done|done|].
  rewrite Hop. apply IH.
Qed.

(** X16: when every record is out of the window, of another kind or
    discarded by the parser, the history is empty and the wallet gets
    the new-user result. *)
Theorem no_usable_record_new_user now now' address records :
  Forall (fun op => in_window fromisoformat (window_start now) op = false \/
                    is_payment_record op = false \/
                    parse op address = None) records ->
  fetch now (Records records) address = [] /\
  analyze now now' (Records records) address = _create_new_user_score.
Proof.
  intros Hall.
  assert (E : fetch now (Records records) address = []).
  { unfold _fetch_wallet_transactions. fold (window_start now).
    destruct (fetch_loop_nothing (window_start now) address records [] Hall)
      as [-> | ->]; reflexivity. }
  split; [exact E|]. by apply analyze_wallet_empty.
Qed.

(** X18: when the two readings of the clock are less than 20 days
    apart, the age score of an analysis is at most 0.3: the window of 90
    days keeps every history younger than 110 days. *)
Theorem analysis_age_score_capped now now' call address :
  now' < now + 20 * microseconds_per_day ->
  (age_score (metrics (analyze_wallet fromisoformat float_of_str
                         now now' call address)) <= 0.3)%Q.
Proof.
  intros Hclock.
  destruct (decide (fetch now call address = [])) as [E|E].
  - rewrite (analyze_wallet_empty _ _ _ now' _ _ E). cbn. lra.
  - destruct (analyze_wallet_nonempty _ _ _ now' _ _ E) as (_ & -> & _).
    assert (Hwin : Forall (fun tx => now - 90 * microseconds_per_day
                                     <= ticks (timestamp tx)) (fetch now call address)).
    { apply fetch_Forall. intros op d tx Hd Hlt Hparse. cbn beta.
      apply parse_timestamp in Hparse. rewrite Hd in Hparse. injection Hparse as <-.
      unfold datetime_lt, window_start in Hlt. cbn [aware ticks] in Hlt.
      case_bool_decide; [|discriminate]. injection Hlt as Hlt. by apply Z.ltb_ge in Hlt. }
    destruct (fetch now call address) as [|tx txs]; [done|].
    cbn [_calculate_wallet_metrics age_score map].
    set (first := make_row address tx). set (rest := map (make_row address) txs).
    assert (Hmin : now - 90 * microseconds_per_day <= min_ticks first rest).
    { apply min_ticks_lower_bound. intros t Ht.
      change (first :: rest) with (map (make_row address) (tx :: txs)) in Ht.
      unfold stamps in Ht. rewrite <- list_fmap_compose in Ht.
      apply list_elem_of_fmap in Ht as (t' & -> & Ht').
      rewrite Forall_forall in Hwin. by apply Hwin. }
    destruct (age_score_cases now' first rest) as [[_ ->]|[Hd ->]]; [lra|].
    assert (Hdays : days_between now' (min_ticks first rest) <= 109).
    { unfold days_between, microseconds_per_day in *.
      apply Z.lt_succ_r, Z.div_lt_upper_bound; lia. }
    pose proof (py_min_le_l (inject_Z (days_between now' (min_ticks first rest))
                             / inject_Z 365) 1) as Hle.
    rewrite (Zle_Qle _ 109) in Hdays. change (inject_Z 109) with 109%Q in Hdays.
    const_div. lra.
Qed.

End AdapterFacts.


Lemma parsed_direction_witness :
  _parse_payment_operation sample_fromisoformat sample_float
    sample_payment sample_wallet = Some sample_payment_tx /\
  type sample_payment_tx ∈ transaction_types.
Proof.
  split; [reflexivity|].
  apply (parsed_direction sample_fromisoformat sample_float
           sample_payment sample_wallet sample_payment_tx).
  reflexivity.
Defined.

Lemma fetch_all_or_nothing_witness :
  sample_bad_timestamp ∈ [sample_payment; sample_bad_timestamp] /\
  _fetch_wallet_transactions sample_fromisoformat sample_float sample_now
    (Records [sample_payment; sample_bad_timestamp]) sample_wallet = [].
Proof.
  split; [apply list_elem_of_further, list_elem_of_here|].
  apply (proj1 (fetch_all_or_nothing sample_fromisoformat sample_float sample_now
                  sample_wallet [sample_payment; sample_bad_timestamp])
           sample_bad_timestamp).
  - apply list_elem_of_further, list_elem_of_here.
  - vm_compute. exact I.
Defined.

Lemma no_usable_record_new_user_witness :
  is_payment_record sample_create_account = false /\
  analyze_wallet sample_fromisoformat sample_float sample_now sample_now
    (Records [sample_create_account]) sample_wallet = _create_new_user_score.
Proof.
  split; [reflexivity|].
  apply (no_usable_record_new_user sample_fromisoformat sample_float sample_now
           sample_now sample_wallet [sample_create_account]).
  constructor; [right; left; reflexivity | constructor].
Defined.

Lemma analysis_age_score_capped_witness :
  sample_now < sample_now + 20 * microseconds_per_day /\
  (age_score (metrics (analyze_wallet sample_fromisoformat sample_float
                         sample_now sample_now
                         (Records [sample_payment; sample_receipt]) sample_wallet))
   <= 0.3)%Q.
Proof.
  split; [reflexivity|].
  apply (analysis_age_score_capped sample_fromisoformat sample_float sample_now
           sample_now (Records [sample_payment; sample_receipt]) sample_wallet).
  reflexivity.
Defined.

(** ** API server *)

(** X19: [get_loan_offers] answers a score from 0 to 1000 with a list of
    offers and any other score with status 500: the 400 it raises for
    such a score is caught by its own handler. *)
Theorem loan_offers_status (score : Z) :
  (0 <= score <= 1000 -> exists offers, api_server.get_loan_offers score = api_server.Ok offers) /\
  (score < 0 \/ 1000 < score ->
   api_server.get_loan_offers score = api_server.HTTPException 500).
Proof.
  unfold api_server.get_loan_offers.
  destruct (Z.ltb_spec score 0), (Z.ltb_spec 1000 score); cbn [orb api_server.except_500];
    (split; [intros ?; first [lia | eexists; reflexivity] | intros ?; first [lia | reflexivity]]).
Qed.

Lemma loan_offers_status_witness :
  1000 < 1001 /\ api_server.get_loan_offers 1001 = api_server.HTTPException 500.
Proof.
  split; [lia|]. apply (proj2 (loan_offers_status 1001)). right. lia.
Defined.

(** X20: the offers listed for a score agree with the terms of the
    composer: there are none exactly below 300, the first offer carries
    the ceiling and the rate of [_determine_loan_terms], and no offer
    exceeds that ceiling or that rate. *)
Theorem loan_offers_within_terms (score : Z) (offers : list api_server.LoanOffer) :
  api_server.get_loan_offers score = api_server.Ok offers ->
  let '(_, ceiling, rate) := _determine_loan_terms score in
  (offers = [] <-> score < 300) /\
  (forall first rest, offers = first :: rest ->
     api_server.amount first = ceiling /\ api_server.interest_rate first = rate) /\
  Forall (fun o => (api_server.amount o <= ceiling)%Q /\
                   (api_server.interest_rate o <= rate)%Q) offers.
Proof.
  unfold api_server.get_loan_offers, _determine_loan_terms.
  destruct (Z.ltb_spec score 0), (Z.ltb_spec 1000 score);
    cbn [orb api_server.except_500]; try discriminate.
  destruct (Z.leb_spec 750 score); [|destruct (Z.leb_spec 600 score);
    [|destruct (Z.leb_spec 450 score); [|destruct (Z.leb_spec 300 score)]]];
    intros [= <-];
    (split; [split; [discriminate || (intros _; lia) | (intros ?; lia) || reflexivity]|]);
    (split; [intros first rest [= <- <-]; split; reflexivity
                 || (intros first rest ?; discriminate)|]);
    repeat constructor; vm_compute; discriminate.
Qed.

Lemma loan_offers_within_terms_witness :
  exists offers,
    api_server.get_loan_offers 666 = api_server.Ok offers /\
    (offers = [] <-> 666 < 300).
Proof.
  eexists. split; [reflexivity|].
  apply (loan_offers_within_terms 666). reflexivity.
Defined.

Lemma mock_profiles_lookup (profile : string) :
  api_server.mock_profiles !! profile =
  if decide (profile = "good_payer") then Some good_payer_mock
  else if decide (profile = "medium_payer") then Some api_server.medium_payer_mock
  else if decide (profile = "new_user") then Some api_server.new_user_mock
  else None.
Proof.
  unfold api_server.mock_profiles. cbn [list_to_map foldr uncurry fst snd].
  repeat case_decide; simplify_map_eq; reflexivity.
Qed.

(** X21: [get_mock_analysis] answers the three profile names with their
    fixture, stamped [now], and every other name with status 500, its
    404 being caught by its own handler; ceiling and rate of each
    fixture are those of the table at the fixture's score, and so is the
    tier except for [new_user], filed HIGH at score 300. *)
Theorem mock_analysis_profiles (now : Z) (profile : string) :
  match api_server.get_mock_analysis now profile with
  | api_server.Ok r =>
      profile ∈ ["good_payer"; "medium_payer"; "new_user"] /\
      api_server.analysis_timestamp r = now /\
      snd (fst (loan_terms (api_server.credit r)))
        = snd (fst (_determine_loan_terms (score (api_server.credit r)))) /\
      snd (loan_terms (api_server.credit r))
        = snd (_determine_loan_terms (score (api_server.credit r))) /\
      (profile <> "new_user" ->
       loan_terms (api_server.credit r)
       = _determine_loan_terms (score (api_server.credit r)))
  | api_server.HTTPException status =>
      (profile ∉ ["good_payer"; "medium_payer"; "new_user"]) /\ status = 500
  end.
Proof.
  unfold api_server.get_mock_analysis. rewrite mock_profiles_lookup.
  repeat case_decide; subst; cbn [api_server.except_500].
  - repeat split; try reflexivity. apply list_elem_of_here.
  - repeat split; try reflexivity. apply list_elem_of_further, list_elem_of_here.
  - repeat split; try reflexivity; [|done].
    apply list_elem_of_further, list_elem_of_further, list_elem_of_here.
  - split; [|reflexivity]. intros Hin.
    repeat (apply elem_of_cons in Hin as [Hin|Hin]; [done|]).
    by apply elem_of_nil in Hin.
Qed.

(** Building an entry of the mock history always raises. *)
Lemma history_item_raises fromtimestamp now i :
  api_server.history_item fromtimestamp now i = None.
Proof.
  unfold api_server.history_item. cbn zeta.
  destruct (api_server.datetime_sub _ _); reflexivity.
Qed.

(** X22: [get_transaction_history] answers status 500 for every limit
    of 1 or more, since the first entry it builds calls [isoformat] on a
    [timedelta]; for a limit of 0 or less it answers an empty history. *)
Theorem transaction_history_answers (fromtimestamp : Z -> datetime)
    (now : Z) (address : string) (limit : Z) :
  (1 <= limit ->
   api_server.get_transaction_history fromtimestamp now address limit
   = api_server.HTTPException 500) /\
  (limit <= 0 ->
   api_server.get_transaction_history fromtimestamp now address limit
   = api_server.Ok
       {| api_server.address := address;
          api_server.transactions := [];
          api_server.total_count := 0;
          api_server.analysis_available := true |}).
Proof.
  unfold api_server.get_transaction_history. cbn zeta.
  set (n := Z.to_nat (Z.min (if 200 <? limit then 200 else limit) 30)).
  split; intros H.
  - assert (exists k, n = S k) as [k ->].
    { exists (Nat.pred n). subst n. destruct (Z.ltb_spec 200 limit); lia. }
    cbn [seq mapM]. rewrite history_item_raises. reflexivity.
  - assert (n = 0%nat) as -> by (subst n; destruct (Z.ltb_spec 200 limit); lia).
    reflexivity.
Qed.

Lemma transaction_history_answers_witness :
  1 <= 50 /\
  api_server.get_transaction_history
    (fun s => {| ticks := s * 1000000; aware := false |}) sample_now sample_wallet 50
  = api_server.HTTPException 500.
Proof.
  split; [lia|].
  apply (proj1 (transaction_history_answers
                  (fun s => {| ticks := s * 1000000; aware := false |})
                  sample_now sample_wallet 50)).
  lia.
Defined.
